(** * solc wrapper: a shallow embedding of [libraries/solc/wrapper.js]

    The file models [setupMethods]: the detection of the compile entry
    points a native [soljson] module exports, the callback bridge
    [runWithReadCallback], and the request/response normaliser
    [compileStandardWrapper] (exported as [compile]).

    Conventions.
    - JavaScript values are the inductive [value]; an object literal is the
      list of its own properties in insertion order, [own_keys] gives the
      order in which the engine enumerates them.
    - Host builtins whose full definition lives in the JavaScript engine
      ([JSON.parse], [JSON.stringify], the number conversion of strings and
      objects) are the fields of a [Host] record; the collaborator
      [translate.js] and the native module are parameters as well.
    - Effects are explicit: a computation of type [M A] threads a [world]
      (the module's function-pointer table and the log of observable
      events) and ends in a value or in a thrown exception. *)

From Stdlib Require Import String Ascii List ZArith NArith QArith Bool Lia DecimalString.
From stdpp Require Import base list.
Import ListNotations.

Local Open Scope string_scope.
Local Open Scope list_scope.
Set Warnings "-register-all".

(** ** JavaScript values *)

(** Function values.  A function is opaque for the wrapper: it only asks
    [typeof] of it and hands it to the native module. *)
Inductive func : Type :=
  | DefaultReadCallback          (* function (path) { return { error: 'File import callback not supported' } } *)
  | HostFunction (id : nat)      (* a function supplied by the caller *)
  | Bridged (callback : func).   (* the closure returned by wrapCallback(callback) *)

(** Numbers are the finite doubles, each written as the rational it
    denotes; the wrapper does no arithmetic on them. *)
Inductive value : Type :=
  | VUndefined
  | VNull
  | VBool (b : bool)
  | VNum (q : Q)
  | VStr (s : string)
  | VArr (elems : list value)
  | VObj (props : list (string * value))
  | VFun (f : func).

Inductive exn : Type :=
  | TypeError (msg : string)
  | AssertionError (msg : string)
  | Thrown (v : value).

(** Outcome of an evaluation: a value, or a thrown exception. *)
Inductive result (A : Type) : Type :=
  | Ok (a : A)
  | Throw (e : exn).
Arguments Ok {A} a.
Arguments Throw {A} e.

Definition rbind {A B : Type} (r : result A) (k : A -> result B) : result B :=
  match r with
  | Ok a => k a
  | Throw e => Throw e
  end.

Declare Scope js_scope.
Delimit Scope js_scope with js.
Notation "'let?' x ':=' r 'in' k" := (rbind r (fun x => k))
  (at level 10, x name, r at level 100, k at level 200) : js_scope.

Definition nat_to_string (n : nat) : string := NilZero.string_of_uint (Nat.to_uint n).

(** An array index in the sense of the language: a canonical decimal
    numeral below 2^32 - 1. *)
Definition array_index (k : string) : option N :=
  match NilZero.uint_of_string k with
  | Some u =>
      let n := N.of_uint u in
      if (NilZero.string_of_uint (N.to_uint n) =? k) && (n <? 4294967295)%N
      then Some n else None
  | None => None
  end.

Fixpoint assoc {A : Type} (k : string) (props : list (string * A)) : option A :=
  match props with
  | [] => None
  | (k', v) :: rest => if k' =? k then Some v else assoc k rest
  end.

Definition typeof (v : value) : string :=
  match v with
  | VUndefined => "undefined"
  | VNull => "object"
  | VBool _ => "boolean"
  | VNum _ => "number"
  | VStr _ => "string"
  | VArr _ => "object"
  | VObj _ => "object"
  | VFun _ => "function"
  end.

Definition num_of_nat (n : nat) : value := VNum (inject_Z (Z.of_nat n)).

Definition char_at (s : string) (i : nat) : value :=
  match String.get i s with
  | Some c => VStr (String c EmptyString)
  | None => VUndefined
  end.

(** [v[k]].  Reading a property of [undefined] or [null] throws a
    TypeError.  None of the names the wrapper reads is defined on a
    builtin prototype, so a name that is not an own property reads as
    [undefined]. *)
Definition get_prop (v : value) (k : string) : result value :=
  match v with
  | VUndefined => Throw (TypeError ("Cannot read property '" ++ k ++ "' of undefined"))
  | VNull => Throw (TypeError ("Cannot read property '" ++ k ++ "' of null"))
  | VObj props =>
      Ok (match assoc k props with Some x => x | None => VUndefined end)
  | VArr elems =>
      if k =? "length" then Ok (num_of_nat (length elems))
      else match array_index k with
           | Some i => Ok (nth (N.to_nat i) elems VUndefined)
           | None => Ok VUndefined
           end
  | VStr s =>
      if k =? "length" then Ok (num_of_nat (String.length s))
      else match array_index k with
           | Some i => Ok (char_at s (N.to_nat i))
           | None => Ok VUndefined
           end
  | VBool _ | VNum _ | VFun _ => Ok VUndefined
  end.

(** [o[k] = v] on a plain object: replaces an own property in place or
    appends a new one.  Assigning to [__proto__] runs the inherited setter
    and creates no own property. *)
Fixpoint replace_prop (k : string) (v : value) (props : list (string * value))
  : list (string * value) :=
  match props with
  | [] => [(k, v)]
  | (k', v') :: rest =>
      if k' =? k then (k, v) :: rest else (k', v') :: replace_prop k v rest
  end.

Definition set_prop (props : list (string * value)) (k : string) (v : value)
  : list (string * value) :=
  if k =? "__proto__" then props else replace_prop k v props.

(** Enumeration order of own properties: array indices in ascending
    order, then the other names in insertion order. *)
Fixpoint insert_index (n : N) (k : string) (l : list (N * string)) : list (N * string) :=
  match l with
  | [] => [(n, k)]
  | (m, k') :: rest =>
      if (n <=? m)%N then (n, k) :: l else (m, k') :: insert_index n k rest
  end.

Definition index_keys (ks : list string) : list (N * string) :=
  fold_right (fun k acc =>
                match array_index k with
                | Some n => insert_index n k acc
                | None => acc
                end) [] ks.

Definition is_index (k : string) : bool :=
  match array_index k with Some _ => true | None => false end.

Definition own_keys {A : Type} (props : list (string * A)) : list string :=
  let ks := map fst props in
  map snd (index_keys ks) ++ filter (fun k => negb (is_index k)) ks.

(** The names a [for (... in v)] loop visits, and [Object.keys(v)]. *)
Definition enumerable_keys (v : value) : list string :=
  match v with
  | VObj props => own_keys props
  | VArr elems => map nat_to_string (seq 0 (length elems))
  | VStr s => map nat_to_string (seq 0 (String.length s))
  | _ => []
  end.

(** ToBoolean. *)
Definition truthy (v : value) : bool :=
  match v with
  | VUndefined | VNull => false
  | VBool b => b
  | VNum q => negb (Qeq_bool q 0)
  | VStr s => match s with EmptyString => false | String _ _ => true end
  | VArr _ | VObj _ | VFun _ => true
  end.

(** [v === undefined], [v === null], [v == null], [v === "s"], [v === 0]. *)
Definition is_undefined (v : value) : bool :=
  match v with VUndefined => true | _ => false end.

Definition is_null (v : value) : bool :=
  match v with VNull => true | _ => false end.

Definition loosely_null (v : value) : bool :=
  match v with VUndefined | VNull => true | _ => false end.

Definition strict_eq_str (v : value) (s : string) : bool :=
  match v with VStr s' => s' =? s | _ => false end.

Definition strict_eq_num (v : value) (n : Q) : bool :=
  match v with VNum q => Qeq_bool q n | _ => false end.

(** [x < y] on numbers. *)
Definition Qltb (x y : Q) : bool := negb (Qle_bool y x).

(** ** Effects *)

(** What the outside world can observe of a run. *)
Inductive event : Type :=
  | EvJSONParse (text : string)              (* JSON.parse(text) *)
  | EvAddFunction (f : func) (ptr : nat)     (* addFunction(f) returned ptr *)
  | EvRemoveFunction (ptr : nat)             (* removeFunction(ptr) *)
  | EvNative (ident : string) (args : list value)   (* a cwrap'ed entry point was called *)
  | EvTranslate (args : list value).         (* translate.translateJsonCompilerOutput(...args) *)

(** The state a run threads: the module's table of reserved function
    pointers (a free slot is [None]) and the log of events so far. *)
Record world : Type := World {
  fptrs : list (option func);
  trace : list event
}.

Definition M (A : Type) : Type := world -> result A * world.

Definition ret {A : Type} (a : A) : M A := fun w => (Ok a, w).

Definition throw {A : Type} (e : exn) : M A := fun w => (Throw e, w).

Definition bind {A B : Type} (m : M A) (k : A -> M B) : M B :=
  fun w =>
    match m w with
    | (Ok a, w') => k a w'
    | (Throw e, w') => (Throw e, w')
    end.

Notation "'let!' x ':=' m 'in' k" := (bind m (fun x => k))
  (at level 10, x name, m at level 100, k at level 200) : js_scope.

Local Open Scope js_scope.

(** A pure evaluation inside an effectful one. *)
Definition lift {A : Type} (r : result A) : M A := fun w => (r, w).

Definition emit (e : event) : M unit :=
  fun w => (Ok tt, {| fptrs := fptrs w; trace := trace w ++ [e] |}).

(** [try { m } catch (e) { handler e }]. *)
Definition try_catch {A : Type} (m : M A) (handler : exn -> M A) : M A :=
  fun w =>
    match m w with
    | (Ok a, w') => (Ok a, w')
    | (Throw e, w') => handler e w'
    end.

(** The calls of native entry points in a log. *)
Definition native_calls (tr : list event) : list (string * list value) :=
  flat_map (fun e => match e with EvNative ident args => [(ident, args)] | _ => [] end) tr.

(** The argument lists the output translator was called with. *)
Definition translate_calls (tr : list event) : list (list value) :=
  flat_map (fun e => match e with EvTranslate args => [args] | _ => [] end) tr.

(** The pointers handed to removeFunction. *)
Definition removed_pointers (tr : list event) : list nat :=
  flat_map (fun e => match e with EvRemoveFunction p => [p] | _ => [] end) tr.

(** ** The environment of the wrapper *)

(** Builtins of the JavaScript engine. *)
Record Host : Type := {
  (** [JSON.parse]: [inl msg] is a SyntaxError whose message is [msg]. *)
  JSON_parse : string -> string + value;
  (** [JSON.stringify] on a value that is neither [undefined] nor a function. *)
  JSON_stringify : value -> string;
  (** ToNumber on strings, arrays, objects and functions; [None] is NaN. *)
  ToNumber_host : value -> option Q
}.

(** The collaborator [./translate.js], which is not part of the wrapper:
    [translateJsonCompilerOutput] receives the list of its actual
    arguments and returns its result or throws. *)
Record Translate : Type := {
  translateJsonCompilerOutput : list value -> result value
}.

(** The native module handle: which symbols it exports, and what a
    compiled entry point does on its (already marshalled) arguments.  The
    native side may read the function-pointer table to call a registered
    bridge; it returns a string or faults. *)
Record Module : Type := {
  exports : string -> bool;
  native : string -> list value -> list (option func) -> result string
}.

(** Modelled from the spec: the add-function-pointer and
    remove-function-pointer API of the native module ([soljson.addFunction]
    or [soljson.Runtime.addFunction], and [removeFunction]), which lives in
    the module's runtime and not in wrapper.js.  The table is an array of
    reserved slots: addFunction takes the first free slot and fails when
    none is left, removeFunction clears the slot it is given (a pointer
    outside the table changes nothing). *)
Fixpoint first_free (tbl : list (option func)) : option nat :=
  match tbl with
  | [] => None
  | None :: _ => Some 0
  | Some _ :: rest => option_map S (first_free rest)
  end.

Definition addFunction (f : func) : M nat :=
  fun w =>
    match first_free (fptrs w) with
    | Some ptr =>
        (Ok ptr, {| fptrs := <[ptr := Some f]> (fptrs w);
                    trace := trace w ++ [EvAddFunction f ptr] |})
    | None => (Throw (Thrown (VStr "Finished up all reserved function pointers.")), w)
    end.

Definition removeFunction (ptr : nat) : M unit :=
  fun w =>
    (Ok tt, {| fptrs := <[ptr := None]> (fptrs w);
               trace := trace w ++ [EvRemoveFunction ptr] |}).

(** ** wrapper.js *)

(** The compile entry points [setupMethods] binds.  A bound entry point is
    a closure over one cwrap'ed native function; it is recorded as the
    identifier that function was wrapped under, [None] standing for the
    JavaScript [null]. *)
Record methods : Type := {
  compileJSON : option string;
  compileJSONMulti : option string;
  compileJSONCallback : option string;
  compileStandard : option string
}.

Section Wrapper.

Variable H : Host.
Variable translate : Translate.
Variable soljson : Module.

(** [JSON.stringify(v)], which is [undefined] on [undefined] and on a
    function. *)
Definition js_stringify (v : value) : value :=
  match v with
  | VUndefined | VFun _ => VUndefined
  | _ => VStr (JSON_stringify H v)
  end.

Definition js_parse (text : string) : M (string + value) :=
  let! _ := emit (EvJSONParse text) in
  ret (JSON_parse H text).

Definition ToNumber (v : value) : option Q :=
  match v with
  | VUndefined => None
  | VNull => Some 0%Q
  | VBool b => Some (if b then 1%Q else 0%Q)
  | VNum q => Some q
  | VStr _ | VArr _ | VObj _ | VFun _ => ToNumber_host H v
  end.

(** [v > n] for a number literal [n]: the operand is converted with
    ToNumber, and every comparison with NaN is false. *)
Definition gt_num (v : value) (n : Q) : bool :=
  match ToNumber v with
  | Some q => Qltb n q
  | None => false
  end.

(** [soljson.cwrap(ident, 'string', [...])]: the returned function calls
    the native symbol and hands back its string. *)
Definition cwrap (ident : string) (args : list value) : M string :=
  let! _ := emit (EvNative ident args) in
  fun w => (native soljson ident args (fptrs w), w).

(** [assert(typeof callback === 'function', ...)], then the bridge
    closure.  Only a [VFun] has type "function". *)
Definition wrapCallback (callback : value) : result func :=
  match callback with
  | VFun f => Ok (Bridged f)
  | _ => Throw (AssertionError "Invalid callback specified.")
  end.

(** This calls compile() with args || cb *)
Definition runWithReadCallback (readCallback : value)
    (compile : list value -> M string) (args : list value) : M string :=
  let readCallback :=
    if is_undefined readCallback then VFun DefaultReadCallback else readCallback in
  let! bridge := lift (wrapCallback readCallback) in
  let! cb := addFunction bridge in
  let! output :=
    try_catch (compile (args ++ [num_of_nat cb]))
              (fun e => let! _ := removeFunction cb in throw e) in
  let! _ := removeFunction cb in
  ret output.

(** The part of [setupMethods] that binds the compile entry points; the
    two tests for the standard-JSON symbol run one after the other on
    the same variable. *)
Definition setupMethods : methods :=
  let compileJSON :=
    if exports soljson "_compileJSON" then Some "compileJSON" else None in
  let compileJSONMulti :=
    if exports soljson "_compileJSONMulti" then Some "compileJSONMulti" else None in
  let compileJSONCallback :=
    if exports soljson "_compileJSONCallback" then Some "compileJSONCallback" else None in
  let compileStandard : option string := None in
  let compileStandard :=
    if exports soljson "_compileStandard" then Some "compileStandard" else compileStandard in
  let compileStandard :=
    if exports soljson "_solidity_compile" then Some "solidity_compile" else compileStandard in
  {| compileJSON := compileJSON;
     compileJSONMulti := compileJSONMulti;
     compileJSONCallback := compileJSONCallback;
     compileStandard := compileStandard |}.

(** [compileJSONCallback(input, optimize, readCallback)]. *)
Definition call_compileJSONCallback (ident : string)
    (input optimize readCallback : value) : M string :=
  runWithReadCallback readCallback (cwrap ident) [input; optimize].

(** [compileStandard(input, readCallback)]. *)
Definition call_compileStandard (ident : string)
    (input readCallback : value) : M string :=
  runWithReadCallback readCallback (cwrap ident) [input].

Definition fatalError (message : string) : value :=
  VObj [("errors",
         VArr [VObj [("type", VStr "SOLCError");
                     ("component", VStr "solcjs");
                     ("severity", VStr "error");
                     ("message", VStr message);
                     ("formattedMessage", VStr ("Error: " ++ message))]])].

Definition formatFatalError (message : string) : value :=
  js_stringify (fatalError message).

(** [input['sources'] == null || input['sources'].length === 0] *)
Definition noInputSpecified (input : value) : result bool :=
  let? sources := get_prop input "sources" in
  if loosely_null sources then Ok true
  else
    let? len := get_prop sources "length" in
    Ok (strict_eq_num len 0%Q).

(** [input['sources'].length > 1] *)
Definition multipleSources (input : value) : result bool :=
  let? sources := get_prop input "sources" in
  let? len := get_prop sources "length" in
  Ok (gt_num len 1%Q).

Definition isOptimizerEnabled (input : value) : result value :=
  let? settings := get_prop input "settings" in
  if negb (truthy settings) then Ok settings
  else
    let? optimizer := get_prop settings "optimizer" in
    if negb (truthy optimizer) then Ok optimizer
    else get_prop optimizer "enabled".

(** The body of the [for (const source in input['sources'])] loop, over
    the names still to visit; [null] forces the failure. *)
Fixpoint translateSources_loop (srcs : value) (names : list string)
    (sources : list (string * value)) : result value :=
  match names with
  | [] => Ok (VObj sources)
  | source :: rest =>
      let? entry := get_prop srcs source in
      let? content := get_prop entry "content" in
      if negb (is_null content)
      then translateSources_loop srcs rest (set_prop sources source content)
      else Ok VNull
  end.

Definition translateSources (input : value) : result value :=
  let? srcs := get_prop input "sources" in
  translateSources_loop srcs (enumerable_keys srcs) [].

Definition librariesSupplied (input : value) : result value :=
  let? settings := get_prop input "settings" in
  if negb (is_null settings) then get_prop settings "libraries"
  else Ok VUndefined.

(** [translateOutput] declares the single parameter [output]; [surplus]
    are the further arguments of a call, which its body never reads. *)
Definition translateOutput (output : string) (surplus : list value) : M value :=
  let! parsed := js_parse output in
  match parsed with
  | inl msg => ret (formatFatalError ("Compiler returned invalid JSON: " ++ msg))
  | inr output =>
      let! _ := emit (EvTranslate [output]) in
      let! output := lift (translateJsonCompilerOutput translate [output]) in
      if loosely_null output then ret (formatFatalError "Failed to process output")
      else ret (js_stringify output)
  end.

(** Expects a Standard JSON I/O but supports old compilers *)
Definition compileStandardWrapper (input : string) (readCallback : value) : M value :=
  let m := setupMethods in
  match compileStandard m with
  | Some std =>
      let! output := call_compileStandard std (VStr input) readCallback in
      ret (VStr output)
  | None =>
  if negb (is_undefined readCallback) && negb (typeof readCallback =? "function") then
    ret (formatFatalError "Invalid import callback supplied")
  else
  let! parsed := js_parse input in
  match parsed with
  | inl msg => ret (formatFatalError ("Invalid JSON supplied: " ++ msg))
  | inr input =>
  let! language := lift (get_prop input "language") in
  if negb (strict_eq_str language "Solidity") then
    ret (formatFatalError "Only Solidity sources are supported")
  else
  let! empty := lift (noInputSpecified input) in
  if empty then ret (formatFatalError "No input specified")
  else
  (* Bail out early *)
  let! many := lift (multipleSources input) in
  if many && match compileJSONMulti m with None => true | Some _ => false end then
    ret (formatFatalError "Multiple sources provided, but compiler only supports single input")
  else
  let! sources := lift (translateSources input) in
  if is_null sources || (length (enumerable_keys sources) =? 0)%nat then
    ret (formatFatalError "Failed to process sources")
  else
  (* Try linking if libraries were supplied *)
  let! libraries := lift (librariesSupplied input) in
  (* Try to wrap around old versions *)
  match compileJSONCallback m with
  | Some cb =>
      let bundle := js_stringify (VObj [("sources", sources)]) in
      let! optimize := lift (isOptimizerEnabled input) in
      let! output := call_compileJSONCallback cb bundle optimize readCallback in
      translateOutput output [libraries]
  | None =>
  match compileJSONMulti m with
  | Some multi =>
      let bundle := js_stringify (VObj [("sources", sources)]) in
      let! optimize := lift (isOptimizerEnabled input) in
      let! output := cwrap multi [bundle; optimize] in
      translateOutput output [libraries]
  | None =>
  (* Try our luck with an ancient compiler *)
  match compileJSON m with
  | Some single =>
      let! first := lift (get_prop sources (nth 0 (enumerable_keys sources) "undefined")) in
      let! optimize := lift (isOptimizerEnabled input) in
      let! output := cwrap single [first; optimize] in
      translateOutput output [libraries]
  | None => ret (formatFatalError "Compiler does not support any known interface.")
  end end end end end.

(** The object [setupMethods] returns exposes the wrapper as [compile]. *)
Definition compile := compileStandardWrapper.

End Wrapper.

(** ** A concrete environment

    To run the wrapper on concrete requests the parameters are instantiated
    with a small host: a JSON reader and printer for the fragment without
    fractional numbers and with the two escapes for the quote and the
    backslash, a translator that wraps the compiler output, and native
    modules given by their export list and a fixed reply. *)
Module Demo.

Definition quote_char : ascii := "034"%char.
Definition backslash : ascii := "092"%char.

(** [q s] is the JSON string literal for [s]. *)
Fixpoint escape (s : string) : string :=
  match s with
  | EmptyString => EmptyString
  | String c rest =>
      if ((c =? quote_char) || (c =? backslash))%char
      then String backslash (String c (escape rest))
      else String c (escape rest)
  end.

Definition q (s : string) : string :=
  String quote_char (escape s ++ String quote_char EmptyString).

Definition print_Z (z : Z) : string :=
  NilZero.string_of_int (Z.to_int z).

Fixpoint join (sep : string) (l : list string) : string :=
  match l with
  | [] => EmptyString
  | [x] => x
  | x :: rest => x ++ sep ++ join sep rest
  end.

Definition omitted (v : value) : bool :=
  match v with VUndefined | VFun _ => true | _ => false end.

(** Number literals are printed from the numerator: the fragment has
    whole numbers only.  Members whose value is [undefined] or a function
    are left out, the others come in enumeration order. *)
Fixpoint stringify (v : value) : string :=
  match v with
  | VUndefined | VFun _ | VNull => "null"
  | VBool true => "true"
  | VBool false => "false"
  | VNum n => print_Z (Qnum n)
  | VStr s => q s
  | VArr elems => "[" ++ join "," (map stringify elems) ++ "]"
  | VObj props =>
      let printed : list (string * option string) :=
        map (fun kv : string * value =>
               let '(k, x) := kv in
               (k, if omitted x then None else Some (stringify x))) props in
      let member (k : string) : list string :=
        match assoc k printed with
        | Some (Some text) => [(q k ++ ":" ++ text)%string]
        | _ => []
        end in
      "{" ++ join "," (flat_map member (own_keys printed)) ++ "}"
  end.

Definition is_ws (c : ascii) : bool :=
  ((c =? " ") || (c =? "009") || (c =? "010") || (c =? "013"))%char.

Fixpoint skip_ws (s : string) : string :=
  match s with
  | String c rest => if is_ws c then skip_ws rest else s
  | EmptyString => s
  end.

Fixpoint strip_prefix (p s : string) : option string :=
  match p, s with
  | EmptyString, _ => Some s
  | String c p', String d s' => if (c =? d)%char then strip_prefix p' s' else None
  | String _ _, EmptyString => None
  end.

(** The rest of a string literal after its opening quote. *)
Fixpoint read_string (s : string) : option (string * string) :=
  match s with
  | EmptyString => None
  | String c rest =>
      if (c =? quote_char)%char then Some (EmptyString, rest)
      else if (c =? backslash)%char then
        match rest with
        | String d rest' =>
            if ((d =? quote_char) || (d =? backslash))%char then
              match read_string rest' with
              | Some (t, r) => Some (String d t, r)
              | None => None
              end
            else None
        | EmptyString => None
        end
      else
        match read_string rest with
        | Some (t, r) => Some (String c t, r)
        | None => None
        end
  end.

Definition digit (c : ascii) : option Z :=
  let n := nat_of_ascii c in
  if (48 <=? n)%nat && (n <=? 57)%nat then Some (Z.of_nat (n - 48)) else None.

Fixpoint read_digits (s : string) (acc : Z) : Z * string :=
  match s with
  | String c rest =>
      match digit c with
      | Some d => read_digits rest (10 * acc + d)%Z
      | None => (acc, s)
      end
  | EmptyString => (acc, s)
  end.

(** A whole number: an optional sign, then 0 or a numeral without a
    leading zero; a fraction or an exponent is outside the fragment. *)
Definition read_number (s : string) : option (value * string) :=
  let '(neg, body) :=
    match s with
    | String c rest => if (c =? "-")%char then (true, rest) else (false, s)
    | EmptyString => (false, s)
    end in
  match body with
  | String c rest =>
      match digit c with
      | Some d =>
          let '(n, r) := if (d =? 0)%Z then (0%Z, rest) else read_digits rest d in
          match r with
          | String e _ =>
              if ((e =? ".") || (e =? "e") || (e =? "E"))%char then None
              else Some (VNum (inject_Z (if neg then - n else n)), r)
          | EmptyString => Some (VNum (inject_Z (if neg then - n else n)), r)
          end
      | None => None
      end
  | EmptyString => None
  end.

Definition read_literal (s : string) : option (value * string) :=
  match strip_prefix "true" s, strip_prefix "false" s, strip_prefix "null" s with
  | Some r, _, _ => Some (VBool true, r)
  | _, Some r, _ => Some (VBool false, r)
  | _, _, Some r => Some (VNull, r)
  | _, _, _ => read_number s
  end.

(** A member given twice keeps its first place and its last value. *)
Fixpoint read_value (fuel : nat) (s : string) : option (value * string) :=
  match fuel with
  | O => None
  | S fuel =>
      match skip_ws s with
      | EmptyString => None
      | String c rest =>
          if (c =? "{")%char then
            match skip_ws rest with
            | EmptyString => None
            | String d rest' =>
                if (d =? "}")%char then Some (VObj [], rest')
                else read_members fuel (String d rest') []
            end
          else if (c =? "[")%char then
            match skip_ws rest with
            | EmptyString => None
            | String d rest' =>
                if (d =? "]")%char then Some (VArr [], rest')
                else read_elements fuel (String d rest') []
            end
          else if (c =? quote_char)%char then
            match read_string rest with
            | Some (t, r) => Some (VStr t, r)
            | None => None
            end
          else read_literal (String c rest)
      end
  end
with read_members (fuel : nat) (s : string) (acc : list (string * value))
    : option (value * string) :=
  match fuel with
  | O => None
  | S fuel =>
      match skip_ws s with
      | EmptyString => None
      | String c rest =>
          if (c =? quote_char)%char then
            match read_string rest with
            | None => None
            | Some (k, r1) =>
                match skip_ws r1 with
                | EmptyString => None
                | String colon r2 =>
                    if (colon =? ":")%char then
                      match read_value fuel r2 with
                      | None => None
                      | Some (v, r3) =>
                          match skip_ws r3 with
                          | EmptyString => None
                          | String d r4 =>
                              if (d =? ",")%char
                              then read_members fuel r4 (replace_prop k v acc)
                              else if (d =? "}")%char
                              then Some (VObj (replace_prop k v acc), r4)
                              else None
                          end
                      end
                    else None
                end
            end
          else None
      end
  end
with read_elements (fuel : nat) (s : string) (acc : list value)
    : option (value * string) :=
  match fuel with
  | O => None
  | S fuel =>
      match read_value fuel s with
      | None => None
      | Some (v, r) =>
          match skip_ws r with
          | EmptyString => None
          | String d r' =>
              if (d =? ",")%char then read_elements fuel r' (acc ++ [v])
              else if (d =? "]")%char then Some (VArr (acc ++ [v]), r')
              else None
          end
      end
  end.

Definition parse (text : string) : string + value :=
  match read_value (S (String.length text)) text with
  | Some (v, rest) =>
      match skip_ws rest with
      | EmptyString => inr v
      | String _ _ => inl "Unexpected token in JSON"
      end
  | None => inl "Unexpected token in JSON"
  end.

(** ToNumber of a string of decimal digits; anything else counts as NaN
    here. *)
Definition to_number (v : value) : option Q :=
  match v with
  | VStr (String c rest) =>
      match digit c with
      | Some d =>
          match read_digits rest d with
          | (n, EmptyString) => Some (inject_Z n)
          | _ => None
          end
      | None => None
      end
  | _ => None
  end.

Definition host : Host :=
  {| JSON_parse := parse; JSON_stringify := stringify; ToNumber_host := to_number |}.

(** A translator that files the legacy output under [contracts], links
    the libraries it is given, and yields [null] on [null]. *)
Definition translator : Translate :=
  {| translateJsonCompilerOutput := fun args =>
       match args with
       | [] => Ok VNull
       | VNull :: _ => Ok VNull
       | [output] => Ok (VObj [("contracts", output)])
       | output :: libraries :: _ =>
           Ok (VObj [("contracts", output); ("linked", libraries)])
       end |}.

(** A module exporting [symbols] whose entry points all answer [reply]. *)
Definition module (symbols : list string) (reply : result string) : Module :=
  {| exports := fun name => existsb (String.eqb name) symbols;
     native := fun _ _ _ => reply |}.

(** A fresh module runtime: four reserved function pointers, none in
    use, and an empty log. *)
Definition w0 : world := {| fptrs := [None; None; None; None]; trace := [] |}.

(** The request of the specification's scenario,
    [{"language":"Solidity","sources":{"a.sol":{"content":"x"}}}],
    as text and as the value it denotes. *)
Definition single_source_request : string :=
  "{" ++ q "language" ++ ":" ++ q "Solidity" ++ ","
      ++ q "sources" ++ ":{" ++ q "a.sol" ++ ":{" ++ q "content" ++ ":" ++ q "x" ++ "}}}".

Definition single_source : value :=
  VObj [("language", VStr "Solidity");
        ("sources", VObj [("a.sol", VObj [("content", VStr "x")])])].

(** Two literal sources and an empty settings block,
    [{"language":"Solidity","sources":{"a.sol":{"content":"x"},"b.sol":{"content":"y"}},"settings":{}}]. *)
Definition two_sources_request : string :=
  "{" ++ q "language" ++ ":" ++ q "Solidity" ++ ","
      ++ q "sources" ++ ":{" ++ q "a.sol" ++ ":{" ++ q "content" ++ ":" ++ q "x" ++ "},"
                             ++ q "b.sol" ++ ":{" ++ q "content" ++ ":" ++ q "y" ++ "}},"
      ++ q "settings" ++ ":{}}".

Definition two_sources : value :=
  VObj [("language", VStr "Solidity");
        ("sources", VObj [("a.sol", VObj [("content", VStr "x")]);
                          ("b.sol", VObj [("content", VStr "y")])]);
        ("settings", VObj [])].

(** An empty sources mapping, [{"language":"Solidity","sources":{}}]. *)
Definition empty_sources_request : string :=
  "{" ++ q "language" ++ ":" ++ q "Solidity" ++ "," ++ q "sources" ++ ":{}}".

(** Another language, [{"language":"Yul","sources":{"a.yul":{"content":"{}"}}}]. *)
Definition yul_request : string :=
  "{" ++ q "language" ++ ":" ++ q "Yul" ++ ","
      ++ q "sources" ++ ":{" ++ q "a.yul" ++ ":{" ++ q "content" ++ ":" ++ q "{}" ++ "}}}".

(** One source and library addresses in the settings,
    [{"language":"Solidity","sources":{"a.sol":{"content":"x"}},"settings":{"libraries":{"a.sol":{"L":"0x1234"}}}}]. *)
Definition library_request : string :=
  "{" ++ q "language" ++ ":" ++ q "Solidity" ++ ","
      ++ q "sources" ++ ":{" ++ q "a.sol" ++ ":{" ++ q "content" ++ ":" ++ q "x" ++ "}},"
      ++ q "settings" ++ ":{" ++ q "libraries" ++ ":{" ++ q "a.sol" ++ ":{"
      ++ q "L" ++ ":" ++ q "0x1234" ++ "}}}}".

Definition library_addresses : value :=
  VObj [("a.sol", VObj [("L", VStr "0x1234")])].

End Demo.

(** ** The selection rule, in the specification's words

    "at most one preferred compile entry point is selected per request:
    preference order is native-standard-JSON > callback-augmented >
    multi-input > legacy single-input". *)
Inductive entry_point : Type :=
  | NativeStandardJSON
  | CallbackAugmented
  | MultiInput
  | LegacySingleInput.

Definition preference_order : list entry_point :=
  [NativeStandardJSON; CallbackAugmented; MultiInput; LegacySingleInput].

(** The function a capability record holds for an entry point, if any. *)
Definition bound (m : methods) (e : entry_point) : option string :=
  match e with
  | NativeStandardJSON => compileStandard m
  | CallbackAugmented => compileJSONCallback m
  | MultiInput => compileJSONMulti m
  | LegacySingleInput => compileJSON m
  end.

(** The first entry point of the order that the record holds. *)
Fixpoint first_bound (m : methods) (order : list entry_point) : option (entry_point * string) :=
  match order with
  | [] => None
  | e :: rest =>
      match bound m e with
      | Some ident => Some (e, ident)
      | None => first_bound m rest
      end
  end.

Definition preferred (m : methods) : option (entry_point * string) :=
  first_bound m preference_order.

(** A handle whose only compile capability is the legacy single-input
    entry point. *)
Definition legacy_only (soljson : Module) : Prop :=
  exports soljson "_compileJSON" = true
  /\ exports soljson "_compileJSONMulti" = false
  /\ exports soljson "_compileJSONCallback" = false
  /\ exports soljson "_compileStandard" = false
  /\ exports soljson "_solidity_compile" = false.

(** A callback argument the degraded path accepts: left out, or a function. *)
Definition callback_accepted (readCallback : value) : bool :=
  is_undefined readCallback || (typeof readCallback =? "function").

(** Shapes of a piece of log. *)
Definition unary_translations (evs : list event) : Prop :=
  Forall (fun args : list value => exists output, args = [output]) (translate_calls evs).

Definition quiet (evs : list event) : Prop :=
  native_calls evs = [] /\ unary_translations evs.

Definition calls_only (ident : string) (evs : list event) : Prop :=
  (native_calls evs = [] \/ exists args, native_calls evs = [(ident, args)])
  /\ unary_translations evs.

(** [emits P m]: whatever the start, [m] only appends to the log, and the
    appended piece satisfies [P]. *)
Definition emits {A : Type} (P : list event -> Prop) (m : M A) : Prop :=
  forall w, exists evs, trace (snd (m w)) = trace w ++ evs /\ P evs.

(** ** The rest of [setupMethods]: metadata accessors and feature flags *)

Record features : Type := {
  legacySingleInput : bool;
  multipleInputs : bool;
  importCallback : bool;
  nativeStandardJSON : bool
}.

(** [f !== null] for a bound entry point. *)
Definition not_null (f : option string) : bool :=
  match f with
  | Some _ => true
  | None => false
  end.

Section Metadata.

Variable soljson : Module.

(** [version]: the newest symbol if exported; the old name is wrapped
    without a test. *)
Definition version : M string :=
  if exports soljson "_solidity_version"
  then cwrap soljson "solidity_version" []
  else cwrap soljson "version" [].

(** [translate.versionToSemver], of the collaborator [./translate.js]. *)
Variable translate_versionToSemver : string -> result value.

Definition versionToSemver : M value :=
  let! raw := version in
  lift (translate_versionToSemver raw).

(** [license]: pre 0.4.14 modules export neither symbol, and the accessor
    is then a function that returns [undefined]. *)
Definition license : M value :=
  if exports soljson "_solidity_license" then
    let! text := cwrap soljson "solidity_license" [] in ret (VStr text)
  else if exports soljson "_license" then
    let! text := cwrap soljson "license" [] in ret (VStr text)
  else ret VUndefined.

(** The [features] member of the object [setupMethods] returns. *)
Definition setupFeatures : features :=
  let m := setupMethods soljson in
  {| legacySingleInput := not_null (compileJSON m);
     multipleInputs := not_null (compileJSONMulti m) || not_null (compileStandard m);
     importCallback := not_null (compileJSONCallback m) || not_null (compileStandard m);
     nativeStandardJSON := not_null (compileStandard m) |}.

End Metadata.

(** ** The bridge closure on the native side

    [copyString] and the closure [wrapCallback] returns work on the memory
    of the module through its runtime, which is not part of wrapper.js:
    the runtime is a parameter, and what the wrapper asks of it is
    recorded as a list of heap operations. *)
Inductive heap_op : Type :=
  | HeapMalloc (size address : nat)                     (* _malloc(size) returned address *)
  | HeapStringToUTF8 (str : string) (buffer maxBytes : nat)   (* stringToUTF8(str, buffer, maxBytes) *)
  | HeapSetValue (ptr pointee : nat) (type : string).   (* setValue(ptr, pointee, type) *)

Record Runtime : Type := {
  lengthBytesUTF8 : string -> nat;
  Pointer_stringify : nat -> string;
  (** the address [_malloc] answers with, after the operations so far *)
  malloc_address : list heap_op -> nat -> nat
}.

Section BridgeClosure.

Variable rt : Runtime.

Definition copyString (str : string) (ptr : nat) (ops : list heap_op) : list heap_op :=
  let length := lengthBytesUTF8 rt str in
  let buffer := malloc_address rt ops (length + 1) in
  ops ++ [HeapMalloc (length + 1) buffer;
          HeapStringToUTF8 str buffer (length + 1);
          HeapSetValue ptr buffer "*"].

(** [if (typeof field === 'string') { copyString(field, slot); }] *)
Definition copy_if_string (field : value) (slot : nat) (ops : list heap_op) : list heap_op :=
  if typeof field =? "string" then
    match field with
    | VStr str => copyString str slot ops
    | _ => ops
    end
  else ops.

(** The closure [function (path, contents, error) {...}] around a callback
    whose behaviour on a path is [callback]. *)
Definition bridge_call (callback : string -> result value) (path contents error : nat)
    (ops : list heap_op) : result unit * list heap_op :=
  match callback (Pointer_stringify rt path) with
  | Throw e => (Throw e, ops)
  | Ok result =>
      match get_prop result "contents" with
      | Throw e => (Throw e, ops)
      | Ok c =>
          let ops := copy_if_string c contents ops in
          match get_prop result "error" with
          | Throw e => (Throw e, ops)
          | Ok err => (Ok tt, copy_if_string err error ops)
          end
      end
  end.

End BridgeClosure.

(** The callback [runWithReadCallback] substitutes when none is given. *)
Definition default_readCallback (path : string) : result value :=
  Ok (VObj [("error", VStr "File import callback not supported")]).


(** ** Conditions on a request, for the statements below *)

(** The request gets through everything the degraded path does before it
    picks an entry point: the language, empty-input and multiple-sources
    checks, the extraction of the sources [props], the reading of the
    libraries [libraries] by [librariesSupplied] (which needs a settings
    block that is not [undefined]) and of the flag [optimize]. *)
Definition passes_validation (H : Host) (m : methods) (request : value)
    (props : list (string * value)) (libraries optimize : value) : Prop :=
  get_prop request "language" = Ok (VStr "Solidity")
  /\ noInputSpecified request = Ok false
  /\ (exists many, multipleSources H request = Ok many
                   /\ many && negb (not_null (compileJSONMulti m)) = false)
  /\ translateSources request = Ok (VObj props)
  /\ own_keys props <> []
  /\ librariesSupplied request = Ok libraries
  /\ isOptimizerEnabled request = Ok optimize.

(** The events of a log that register a bridge. *)
Definition registrations (tr : list event) : list func :=
  flat_map (fun e => match e with EvAddFunction f _ => [f] | _ => [] end) tr.

(** The bridge [runWithReadCallback] registers for a callback argument. *)
Definition bridge_of (readCallback : value) : option func :=
  match readCallback with
  | VUndefined => Some (Bridged DefaultReadCallback)
  | VFun f => Some (Bridged f)
  | _ => None
  end.

(** [m] leaves the function-pointer table as it found it. *)
Definition preserves_table {A : Type} (m : M A) : Prop :=
  forall w, fptrs (snd (m w)) = fptrs w.

(** [sources[Object.keys(sources)[0]]] for the object [props]. *)
Definition first_source (props : list (string * value)) : value :=
  match assoc (nth 0 (own_keys props) "undefined") props with
  | Some content => content
  | None => VUndefined
  end.

(** What the degraded path passes to an entry point, the table the native
    side sees during the call, and the events around the call. *)
Definition entry_arguments (H : Host) (entry : entry_point)
    (props : list (string * value)) (optimize : value) (cb : nat) : list value :=
  let bundle := js_stringify H (VObj [("sources", VObj props)]) in
  match entry with
  | NativeStandardJSON => []
  | CallbackAugmented => [bundle; optimize; num_of_nat cb]
  | MultiInput => [bundle; optimize]
  | LegacySingleInput => [first_source props; optimize]
  end.

Definition entry_table (entry : entry_point) (bridge : func) (cb : nat)
    (tbl : list (option func)) : list (option func) :=
  match entry with
  | CallbackAugmented => <[cb := Some bridge]> tbl
  | _ => tbl
  end.

Definition entry_events (entry : entry_point) (ident : string) (args : list value)
    (bridge : func) (cb : nat) : list event :=
  match entry with
  | CallbackAugmented =>
      [EvAddFunction bridge cb; EvNative ident args; EvRemoveFunction cb]
  | _ => [EvNative ident args]
  end.

(** The response [translateOutput] makes of a native reply, and the events
    it logs on the way. *)
Definition output_response (H : Host) (translate : Translate) (reply : string)
  : result value :=
  match JSON_parse H reply with
  | inl msg => Ok (formatFatalError H ("Compiler returned invalid JSON: " ++ msg))
  | inr parsed =>
      match translateJsonCompilerOutput translate [parsed] with
      | Throw e => Throw e
      | Ok translated =>
          if loosely_null translated
          then Ok (formatFatalError H "Failed to process output")
          else Ok (js_stringify H translated)
      end
  end.

Definition output_events (H : Host) (reply : string) : list event :=
  EvJSONParse reply ::
  match JSON_parse H reply with
  | inl _ => []
  | inr parsed => [EvTranslate [parsed]]
  end.

(** ** Further concrete inputs *)
Module Samples.

(** [{"language":"Solidity","sources":{"a.sol":{"content":"x"},"b.sol":{"content":null}},"settings":{}}] *)
Definition null_content_request : string :=
  "{" ++ Demo.q "language" ++ ":" ++ Demo.q "Solidity" ++ ","
      ++ Demo.q "sources" ++ ":{" ++ Demo.q "a.sol" ++ ":{" ++ Demo.q "content" ++ ":"
                                  ++ Demo.q "x" ++ "},"
                                  ++ Demo.q "b.sol" ++ ":{" ++ Demo.q "content" ++ ":null}},"
      ++ Demo.q "settings" ++ ":{}}".

Definition null_content : value :=
  VObj [("language", VStr "Solidity");
        ("sources", VObj [("a.sol", VObj [("content", VStr "x")]);
                          ("b.sol", VObj [("content", VNull)])]);
        ("settings", VObj [])].

(** [{"language":"Solidity","sources":[]}] *)
Definition empty_array_request : string :=
  "{" ++ Demo.q "language" ++ ":" ++ Demo.q "Solidity" ++ "," ++ Demo.q "sources" ++ ":[]}".

Definition empty_array : value :=
  VObj [("language", VStr "Solidity"); ("sources", VArr [])].

(** [{"language":"Solidity","sources":[{"content":"x"},{"content":"y"}]}] *)
Definition two_element_array_request : string :=
  "{" ++ Demo.q "language" ++ ":" ++ Demo.q "Solidity" ++ ","
      ++ Demo.q "sources" ++ ":[{" ++ Demo.q "content" ++ ":" ++ Demo.q "x" ++ "},{"
                                   ++ Demo.q "content" ++ ":" ++ Demo.q "y" ++ "}]}".

Definition two_element_array : value :=
  VObj [("language", VStr "Solidity");
        ("sources", VArr [VObj [("content", VStr "x")]; VObj [("content", VStr "y")]])].


(** The sources [translateSources] makes of [Demo.two_sources]. *)
Definition two_sources_props : list (string * value) :=
  [("a.sol", VStr "x"); ("b.sol", VStr "y")].

(** A runtime for single-byte text: the byte length is the length, every
    path pointer reads as "lib.sol", and buffers are handed out one after
    the other from address 1024. *)
Definition allocated (ops : list heap_op) : nat :=
  fold_right (fun op total => match op with
                              | HeapMalloc size _ => size + total
                              | _ => total
                              end) 0 ops.

Definition runtime : Runtime :=
  {| lengthBytesUTF8 := String.length;
     Pointer_stringify := fun _ => "lib.sol";
     malloc_address := fun ops _ => 1024 + allocated ops |}.


(** A callback that forgets to return anything. *)
Definition silent_callback (path : string) : result value := Ok VUndefined.

End Samples.

(** * Properties *)

(** ** The function-pointer table *)

Lemma first_free_lookup (tbl : list (option func)) (p : nat) :
  first_free tbl = Some p -> tbl !! p = Some None.
Proof.
  revert p. induction tbl as [|slot tbl IH]; intros p Hp; simpl in Hp.
  - discriminate.
  - destruct slot as [f|].
    + destruct (first_free tbl) as [p'|] eqn:E; simpl in Hp; [|discriminate].
      injection Hp as <-. simpl. apply IH. reflexivity.
    + injection Hp as <-. reflexivity.
Qed.

Lemma first_free_restore (tbl : list (option func)) (p : nat) (f : func) :
  first_free tbl = Some p -> <[p := None]> (<[p := Some f]> tbl) = tbl.
Proof.
  intros Hp. rewrite list_insert_insert_eq.
  apply list_insert_id. apply first_free_lookup. exact Hp.
Qed.

(** Only a function passes the assertion of [wrapCallback]. *)
Lemma wrapCallback_Ok (callback : value) (bridge : func) :
  wrapCallback callback = Ok bridge ->
  typeof callback = "function" /\ exists f, callback = VFun f /\ bridge = Bridged f.
Proof.
  destruct callback; simpl; intros E; try discriminate.
  injection E as <-. split; [reflexivity|]. eexists. split; reflexivity.
Qed.

Section Bridge.

Variable soljson : Module.

(** One run of [runWithReadCallback] around a cwrap'ed entry point,
    computed: no registration when the callback is refused or the table is
    full; otherwise registration, the native call, and the removal. *)
Lemma runWithReadCallback_run (readCallback : value) (ident : string)
    (args : list value) (w : world) :
  runWithReadCallback readCallback (cwrap soljson ident) args w =
  match wrapCallback (if is_undefined readCallback
                      then VFun DefaultReadCallback else readCallback) with
  | Throw e => (Throw e, w)
  | Ok bridge =>
      match first_free (fptrs w) with
      | None => (Throw (Thrown (VStr "Finished up all reserved function pointers.")), w)
      | Some cb =>
          (native soljson ident (args ++ [num_of_nat cb]) (<[cb := Some bridge]> (fptrs w)),
           {| fptrs := <[cb := None]> (<[cb := Some bridge]> (fptrs w));
              trace := trace w ++ [EvAddFunction bridge cb;
                                   EvNative ident (args ++ [num_of_nat cb]);
                                   EvRemoveFunction cb] |})
      end
  end.
Proof.
  unfold runWithReadCallback, bind, lift.
  destruct (wrapCallback _) as [bridge|e]; [|reflexivity].
  unfold addFunction.
  destruct (first_free (fptrs w)) as [cb|]; [|reflexivity].
  unfold try_catch, cwrap, bind, emit, removeFunction, throw, ret; simpl.
  destruct (native soljson ident _ _) as [out|e]; simpl;
    rewrite <- !app_assoc; reflexivity.
Qed.

(** C6.  When the bridge is registered for a native compile call (the
    callback is a function or left out, and the table has a free slot
    [cb]), the run consists of exactly: addFunction giving [cb], the native
    call with [cb] as last argument, removeFunction of [cb].  The pointer
    is removed exactly once whether the native call returns or faults
    (the outcome of the run is the outcome of the native call, whichever
    it is), and afterwards the table is what it was before the call, with
    the slot [cb] free. *)
Theorem bridge_deregistered_exactly_once (readCallback : value) (ident : string)
    (args : list value) (w : world) (bridge : func) (cb : nat) :
  wrapCallback (if is_undefined readCallback
                then VFun DefaultReadCallback else readCallback) = Ok bridge ->
  first_free (fptrs w) = Some cb ->
  let run := runWithReadCallback readCallback (cwrap soljson ident) args w in
  fst run = native soljson ident (args ++ [num_of_nat cb]) (<[cb := Some bridge]> (fptrs w))
  /\ trace (snd run) = trace w ++ [EvAddFunction bridge cb;
                                    EvNative ident (args ++ [num_of_nat cb]);
                                    EvRemoveFunction cb]
  /\ count_occ Nat.eq_dec (removed_pointers (skipn (length (trace w)) (trace (snd run)))) cb = 1
  /\ fptrs (snd run) = fptrs w
  /\ fptrs (snd run) !! cb = Some None.
Proof.
  intros Hwrap Hfree run. subst run.
  rewrite runWithReadCallback_run, Hwrap, Hfree. simpl.
  rewrite (first_free_restore _ _ _ Hfree).
  repeat split.
  - rewrite skipn_app, skipn_all, Nat.sub_diag. simpl.
    destruct (Nat.eq_dec cb cb); [reflexivity|contradiction].
  - apply first_free_lookup. exact Hfree.
Qed.

End Bridge.

(** ** What a run appends to the log *)

Lemma native_calls_app (a b : list event) :
  native_calls (a ++ b) = native_calls a ++ native_calls b.
Proof. apply flat_map_app. Qed.

Lemma translate_calls_app (a b : list event) :
  translate_calls (a ++ b) = translate_calls a ++ translate_calls b.
Proof. apply flat_map_app. Qed.

Lemma unary_translations_app (a b : list event) :
  unary_translations a -> unary_translations b -> unary_translations (a ++ b).
Proof.
  unfold unary_translations. intros Ha Hb.
  rewrite translate_calls_app. apply Forall_app; split; assumption.
Qed.

Lemma quiet_nil : quiet [].
Proof. split; [reflexivity | constructor]. Qed.

Lemma quiet_app (a b : list event) : quiet a -> quiet b -> quiet (a ++ b).
Proof.
  intros [Ha Ta] [Hb Tb]. split.
  - rewrite native_calls_app, Ha, Hb. reflexivity.
  - apply unary_translations_app; assumption.
Qed.

Lemma quiet_calls_only (ident : string) (evs : list event) :
  quiet evs -> calls_only ident evs.
Proof. intros [Hn Ht]. split; [left; exact Hn | exact Ht]. Qed.

Lemma calls_only_nil (ident : string) : calls_only ident [].
Proof. apply quiet_calls_only, quiet_nil. Qed.

Lemma quiet_then_calls (ident : string) (a b : list event) :
  quiet a -> calls_only ident b -> calls_only ident (a ++ b).
Proof.
  intros [Ha Ta] [Hb Tb]. split.
  - rewrite native_calls_app, Ha. exact Hb.
  - apply unary_translations_app; assumption.
Qed.

Lemma calls_then_quiet (ident : string) (a b : list event) :
  calls_only ident a -> quiet b -> calls_only ident (a ++ b).
Proof.
  intros [Ha Ta] [Hb Tb]. split.
  - rewrite native_calls_app, Hb, app_nil_r. exact Ha.
  - apply unary_translations_app; assumption.
Qed.

Create HintDb log.
#[local] Hint Resolve quiet_nil calls_only_nil quiet_app quiet_then_calls
  calls_then_quiet quiet_calls_only : log.

Lemma emits_ret {A : Type} (P : list event -> Prop) (a : A) :
  P [] -> emits P (ret a).
Proof. intros HP w. exists []. simpl. rewrite app_nil_r. auto. Qed.

Lemma emits_weaken {A : Type} (P Q : list event -> Prop) (m : M A) :
  (forall evs, P evs -> Q evs) -> emits P m -> emits Q m.
Proof. intros HPQ Hm w. destruct (Hm w) as (evs & E & HP). eauto. Qed.

(** Sequencing: the pieces of the two steps are appended; when the first
    step throws, its piece stands alone. *)
Lemma emits_bind {A B : Type} (P Q R : list event -> Prop) (m : M A) (k : A -> M B) :
  emits P m -> (forall a, emits Q (k a)) ->
  (forall e1, P e1 -> R e1) ->
  (forall e1 e2, P e1 -> Q e2 -> R (e1 ++ e2)) ->
  emits R (bind m k).
Proof.
  intros Hm Hk HPR HPQR w. unfold bind.
  destruct (Hm w) as (e1 & E1 & HP1).
  destruct (m w) as [[a|e] w1]; simpl in E1.
  - destruct (Hk a w1) as (e2 & E2 & HQ2).
    exists (e1 ++ e2). rewrite E2, E1, app_assoc. auto.
  - exists e1. simpl. auto.
Qed.

Lemma emits_lift_bind {A B : Type} (P : list event -> Prop) (r : result A) (k : A -> M B) :
  P [] -> (forall a, emits P (k a)) -> emits P (bind (lift r) k).
Proof.
  intros HP Hk w. unfold bind, lift. destruct r as [a|e].
  - apply Hk.
  - exists []. simpl. rewrite app_nil_r. auto.
Qed.

Lemma emits_quiet_bind {A B : Type} (m : M A) (k : A -> M B) :
  emits quiet m -> (forall a, emits quiet (k a)) -> emits quiet (bind m k).
Proof. intros Hm Hk. eapply emits_bind; eauto with log. Qed.

Lemma emits_quiet_then_calls {A B : Type} (ident : string) (m : M A) (k : A -> M B) :
  emits quiet m -> (forall a, emits (calls_only ident) (k a)) ->
  emits (calls_only ident) (bind m k).
Proof. intros Hm Hk. eapply emits_bind; eauto with log. Qed.

Lemma emits_calls_then_quiet {A B : Type} (ident : string) (m : M A) (k : A -> M B) :
  emits (calls_only ident) m -> (forall a, emits quiet (k a)) ->
  emits (calls_only ident) (bind m k).
Proof. intros Hm Hk. eapply emits_bind; eauto with log. Qed.

Section Log.

Variable H : Host.
Variable translate : Translate.
Variable soljson : Module.

Lemma js_parse_quiet (text : string) : emits quiet (js_parse H text).
Proof.
  intros w. exists [EvJSONParse text]. split; [reflexivity|].
  split; [reflexivity | constructor].
Qed.

Lemma translateOutput_quiet (output : string) (surplus : list value) :
  emits quiet (translateOutput H translate output surplus).
Proof.
  unfold translateOutput.
  apply emits_quiet_bind; [apply js_parse_quiet|].
  intros [msg|parsed]; [apply emits_ret, quiet_nil|].
  eapply emits_bind with (P := quiet) (Q := quiet); eauto with log.
  - intros w. exists [EvTranslate [parsed]]. split; [reflexivity|].
    split; [reflexivity|]. repeat constructor. eexists; reflexivity.
  - intros _. apply emits_lift_bind; [apply quiet_nil|].
    intros out. destruct (loosely_null out); apply emits_ret, quiet_nil.
Qed.

Lemma cwrap_calls (ident : string) (args : list value) :
  emits (calls_only ident) (cwrap soljson ident args).
Proof.
  intros w. exists [EvNative ident args]. split; [reflexivity|].
  split; [right; eexists; reflexivity | constructor].
Qed.

Lemma runWithReadCallback_calls (readCallback : value) (ident : string)
    (args : list value) :
  emits (calls_only ident) (runWithReadCallback readCallback (cwrap soljson ident) args).
Proof.
  intros w. rewrite runWithReadCallback_run.
  destruct (wrapCallback _) as [bridge|e].
  - destruct (first_free (fptrs w)) as [cb|].
    + eexists. split; [reflexivity|].
      split; [right; eexists; reflexivity | constructor].
    + exists []. simpl. rewrite app_nil_r. auto with log.
  - exists []. simpl. rewrite app_nil_r. auto with log.
Qed.

(** The log of one [compile]: at most one native call, to the function
    bound for the preferred entry point, and the translator is only ever
    given one argument. *)
Lemma compile_log (input : string) (readCallback : value) :
  emits (fun evs => match preferred (setupMethods soljson) with
                    | Some (_, ident) => calls_only ident evs
                    | None => quiet evs
                    end)
        (compile H translate soljson input readCallback).
Proof.
  unfold compile, compileStandardWrapper, preferred, preference_order, first_bound, bound.
  set (m := setupMethods soljson).
  destruct (compileStandard m) as [std|].
  { apply emits_calls_then_quiet; [apply runWithReadCallback_calls|].
    intros out. apply emits_ret, quiet_nil. }
  set (P := fun evs : list event => match compileJSONCallback m with
            | Some ident => calls_only ident evs
            | None => match compileJSONMulti m with
                      | Some ident => calls_only ident evs
                      | None => match compileJSON m with
                                | Some ident => calls_only ident evs
                                | None => quiet evs
                                end
                      end
            end).
  apply emits_weaken with (P := P).
  { intros evs. unfold P.
    destruct (compileJSONCallback m); [auto|].
    destruct (compileJSONMulti m); [auto|].
    destruct (compileJSON m); auto. }
  assert (HP : forall evs, quiet evs -> P evs).
  { intros evs Hq. unfold P.
    destruct (compileJSONCallback m); [auto with log|].
    destruct (compileJSONMulti m); [auto with log|].
    destruct (compileJSON m); auto with log. }
  assert (Hfatal : forall msg, emits P (ret (formatFatalError H msg))).
  { intros msg. apply emits_ret, HP, quiet_nil. }
  assert (Hbind : forall (A : Type) (r : result A) (k : A -> M value),
             (forall a, emits P (k a)) -> emits P (bind (lift r) k)).
  { intros A r k Hk. apply emits_lift_bind; [apply HP, quiet_nil | exact Hk]. }
  destruct (negb (is_undefined readCallback) && negb (typeof readCallback =? "function"));
    [apply Hfatal|].
  eapply emits_bind with (P := quiet) (Q := P); [apply js_parse_quiet | | exact HP |].
  2:{ intros e1 e2 Hq1 HP2. unfold P in *.
      destruct (compileJSONCallback m); [auto with log|].
      destruct (compileJSONMulti m); [auto with log|].
      destruct (compileJSON m); auto with log. }
  intros [msg|request]; [apply Hfatal|].
  apply Hbind; intros language.
  destruct (negb (strict_eq_str language "Solidity")); [apply Hfatal|].
  apply Hbind; intros empty.
  destruct empty; [apply Hfatal|].
  apply Hbind; intros many.
  destruct (many && _); [apply Hfatal|].
  apply Hbind; intros sources.
  destruct (is_null sources || _); [apply Hfatal|].
  apply Hbind; intros libraries.
  unfold P.
  destruct (compileJSONCallback m) as [cb|].
  { apply emits_lift_bind; [apply calls_only_nil|]. intros optimize.
    apply emits_calls_then_quiet; [apply runWithReadCallback_calls|].
    intros out. apply translateOutput_quiet. }
  destruct (compileJSONMulti m) as [multi|].
  { apply emits_lift_bind; [apply calls_only_nil|]. intros optimize.
    apply emits_calls_then_quiet; [apply cwrap_calls|].
    intros out. apply translateOutput_quiet. }
  destruct (compileJSON m) as [single|].
  { apply emits_lift_bind; [apply calls_only_nil|]. intros first.
    apply emits_lift_bind; [apply calls_only_nil|]. intros optimize.
    apply emits_calls_then_quiet; [apply cwrap_calls|].
    intros out. apply translateOutput_quiet. }
  apply emits_ret, quiet_nil.
Qed.

End Log.

(** ** Entry-point selection *)

(** C7.  Whatever the capability record, the request and the callback,
    one [compile] calls at most one native entry point, and a call that is
    made goes to the function bound for the first entry point of the
    preference order native-standard-JSON, callback-augmented,
    multi-input, legacy single-input that the record holds. *)
Theorem at_most_one_entry_point_by_preference (H : Host) (translate : Translate)
    (soljson : Module) (input : string) (readCallback : value) (w : world) :
  exists evs,
    trace (snd (compile H translate soljson input readCallback w)) = trace w ++ evs
    /\ length (native_calls evs) <= 1
    /\ forall ident args,
         In (ident, args) (native_calls evs) ->
         exists entry,
           preferred (setupMethods soljson) = Some (entry, ident)
           /\ native_calls evs = [(ident, args)].
Proof.
  destruct (compile_log H translate soljson input readCallback w) as (evs & E & Hlog).
  exists evs. split; [exact E|].
  destruct (preferred (setupMethods soljson)) as [[entry ident]|].
  - destruct Hlog as [[Hn|[args Hn]] _]; rewrite Hn; simpl.
    + split; [lia | intros ? ? []].
    + split; [lia|]. intros ident' args' [Heq|[]].
      injection Heq as <- <-. exists entry. split; reflexivity.
  - destruct Hlog as [Hn _]. rewrite Hn. simpl. split; [lia | intros ? ? []].
Qed.

(** C10.  A handle that exports both [_compileStandard] and
    [_solidity_compile] has its standard-JSON path bound to
    [solidity_compile]: the second test overwrites the binding of the
    first, and no run of [compile] calls [compileStandard]. *)
Theorem newest_standard_symbol_wins (H : Host) (translate : Translate)
    (soljson : Module) :
  exports soljson "_compileStandard" = true ->
  exports soljson "_solidity_compile" = true ->
  compileStandard (setupMethods soljson) = Some "solidity_compile"
  /\ forall input readCallback w,
       exists evs,
         trace (snd (compile H translate soljson input readCallback w)) = trace w ++ evs
         /\ forall ident args,
              In (ident, args) (native_calls evs) ->
              ident = "solidity_compile" /\ ident <> "compileStandard".
Proof.
  intros Hold Hnew.
  assert (Hstd : compileStandard (setupMethods soljson) = Some "solidity_compile").
  { unfold setupMethods. simpl. rewrite Hnew. reflexivity. }
  split; [exact Hstd|].
  intros input readCallback w.
  destruct (compile_log H translate soljson input readCallback w) as (evs & E & Hlog).
  exists evs. split; [exact E|].
  unfold preferred, preference_order, first_bound, bound in Hlog.
  rewrite Hstd in Hlog.
  destruct Hlog as [[Hn|[args0 Hn]] _]; rewrite Hn; simpl.
  - intros ? ? [].
  - intros ident args [Heq|[]]. injection Heq as <- <-.
    split; [reflexivity | discriminate].
Qed.

(** C5 (the code departs from the claim).  In every run of [compile], each
    call of the output translator passes exactly one argument, the parsed
    native output: the library addresses taken from the settings never
    reach it. *)
Theorem translator_receives_the_output_only (H : Host) (translate : Translate)
    (soljson : Module) (input : string) (readCallback : value) (w : world) :
  exists evs,
    trace (snd (compile H translate soljson input readCallback w)) = trace w ++ evs
    /\ Forall (fun args : list value => exists output, args = [output])
              (translate_calls evs).
Proof.
  destruct (compile_log H translate soljson input readCallback w) as (evs & E & Hlog).
  exists evs. split; [exact E|].
  destruct (preferred (setupMethods soljson)) as [[entry ident]|];
    destruct Hlog as [_ Ht]; exact Ht.
Qed.

(** ** The degraded path: validation *)

Lemma callback_guard (readCallback : value) :
  callback_accepted readCallback = true ->
  negb (is_undefined readCallback) && negb (typeof readCallback =? "function") = false.
Proof.
  unfold callback_accepted. intros Hacc.
  rewrite <- negb_orb, Hacc. reflexivity.
Qed.

Lemma strict_eq_str_false (v : value) (s : string) :
  v <> VStr s -> strict_eq_str v s = false.
Proof.
  destruct v as [| | | |s'| | |]; simpl; try reflexivity.
  intros Hne. apply String.eqb_neq. intros ->. apply Hne. reflexivity.
Qed.

Lemma legacy_only_methods (soljson : Module) :
  legacy_only soljson ->
  setupMethods soljson =
    {| compileJSON := Some "compileJSON"; compileJSONMulti := None;
       compileJSONCallback := None; compileStandard := None |}.
Proof.
  intros (H1 & H2 & H3 & H4 & H5). unfold setupMethods.
  rewrite H1, H2, H3, H4, H5. reflexivity.
Qed.

(** Entering the degraded path: no standard-JSON function is bound, the
    callback passes the guard, and the input parses. *)
Ltac degraded Hstd Hcb Hparse :=
  unfold compile, compileStandardWrapper; cbv zeta;
  rewrite Hstd, (callback_guard _ Hcb);
  unfold bind, js_parse, emit, ret, lift; simpl;
  rewrite Hparse.

(** A request that passes validation and has no settings block: reading
    the libraries throws before any entry point is tried. *)
Lemma absent_settings_run (H : Host) (translate : Translate) (soljson : Module)
    (input : string) (readCallback : value) (w : world) (request sources : value) :
  compileStandard (setupMethods soljson) = None ->
  callback_accepted readCallback = true ->
  JSON_parse H input = inr request ->
  get_prop request "language" = Ok (VStr "Solidity") ->
  noInputSpecified request = Ok false ->
  multipleSources H request = Ok false ->
  translateSources request = Ok sources ->
  is_null sources || (length (enumerable_keys sources) =? 0)%nat = false ->
  get_prop request "settings" = Ok VUndefined ->
  compile H translate soljson input readCallback w =
    (Throw (TypeError "Cannot read property 'libraries' of undefined"),
     {| fptrs := fptrs w; trace := trace w ++ [EvJSONParse input] |}).
Proof.
  intros Hstd Hcb Hparse Hlang Hempty Hmany Hsrc Hkeys Hset.
  degraded Hstd Hcb Hparse.
  rewrite Hlang. simpl. rewrite Hempty, Hmany. simpl. rewrite Hsrc, Hkeys.
  unfold librariesSupplied. rewrite Hset. reflexivity.
Qed.

(** C1 (the code departs from the claim).  Against a handle without a
    standard-JSON function, every request that passes validation and has
    no settings block makes [compile] throw a TypeError: the exception
    escapes to the caller, and it is raised by [librariesSupplied], before
    any native entry point is called. *)
Theorem request_without_settings_throws (H : Host) (translate : Translate)
    (soljson : Module) (input : string) (readCallback : value) (w : world)
    (request sources : value) :
  compileStandard (setupMethods soljson) = None ->
  callback_accepted readCallback = true ->
  JSON_parse H input = inr request ->
  get_prop request "language" = Ok (VStr "Solidity") ->
  noInputSpecified request = Ok false ->
  multipleSources H request = Ok false ->
  translateSources request = Ok sources ->
  is_null sources || (length (enumerable_keys sources) =? 0)%nat = false ->
  get_prop request "settings" = Ok VUndefined ->
  let run := compile H translate soljson input readCallback w in
  fst run = Throw (TypeError "Cannot read property 'libraries' of undefined")
  /\ native_calls (trace (snd run)) = native_calls (trace w).
Proof.
  intros Hstd Hcb Hparse Hlang Hempty Hmany Hsrc Hkeys Hset run. subst run.
  rewrite (absent_settings_run H translate soljson input readCallback w request sources)
    by assumption.
  simpl. split; [reflexivity|].
  rewrite native_calls_app. simpl. apply app_nil_r.
Qed.

(** C4 (the code departs from the claim).  On the scenario request
    [{"language":"Solidity","sources":{"a.sol":{"content":"x"}}}] against a
    handle with only the legacy entry point, [compile] throws a TypeError
    after parsing the input: the legacy entry point is not called and
    nothing reaches the output translator. *)
Theorem scenario_request_never_reaches_legacy_compiler (H : Host)
    (translate : Translate) (soljson : Module) (input : string)
    (readCallback : value) (w : world) :
  legacy_only soljson ->
  callback_accepted readCallback = true ->
  JSON_parse H input = inr Demo.single_source ->
  let run := compile H translate soljson input readCallback w in
  fst run = Throw (TypeError "Cannot read property 'libraries' of undefined")
  /\ trace (snd run) = trace w ++ [EvJSONParse input]
  /\ native_calls (trace (snd run)) = native_calls (trace w)
  /\ translate_calls (trace (snd run)) = translate_calls (trace w).
Proof.
  intros Hlegacy Hcb Hparse run. subst run.
  rewrite (absent_settings_run H translate soljson input readCallback w
             Demo.single_source (VObj [("a.sol", VStr "x")])); try assumption;
    try reflexivity.
  - simpl. repeat split.
    + rewrite native_calls_app. simpl. apply app_nil_r.
    + rewrite translate_calls_app. simpl. apply app_nil_r.
  - rewrite (legacy_only_methods _ Hlegacy). reflexivity.
Qed.

(** C2 (the code departs from the claim).  Against a handle without a
    standard-JSON function, a request with the supported language and an
    empty sources mapping is answered with the fatal response "Failed to
    process sources", not "No input specified": the length test of the
    first check reads [undefined] on a mapping.  No native call is made. *)
Theorem empty_sources_mapping_response (H : Host) (translate : Translate)
    (soljson : Module) (input : string) (readCallback : value) (w : world)
    (request : value) :
  compileStandard (setupMethods soljson) = None ->
  callback_accepted readCallback = true ->
  JSON_parse H input = inr request ->
  get_prop request "language" = Ok (VStr "Solidity") ->
  get_prop request "sources" = Ok (VObj []) ->
  compile H translate soljson input readCallback w =
    (Ok (formatFatalError H "Failed to process sources"),
     {| fptrs := fptrs w; trace := trace w ++ [EvJSONParse input] |}).
Proof.
  intros Hstd Hcb Hparse Hlang Hsources.
  degraded Hstd Hcb Hparse.
  rewrite Hlang. simpl.
  unfold noInputSpecified, multipleSources, translateSources.
  rewrite Hsources. reflexivity.
Qed.


Lemma bind_lift_Ok {A B : Type} (a : A) (k : A -> M B) :
  bind (lift (Ok a)) k = k a.
Proof. reflexivity. Qed.

(** C3 (the code departs from the claim).  On a request with the two
    sources [a.sol] and [b.sol], a handle with only the legacy entry point
    does call that entry point, with the content of the first source: the
    length test of the early bail-out reads [undefined] on a mapping. *)
Theorem two_sources_reach_legacy_compiler (H : Host) (translate : Translate)
    (soljson : Module) (input : string) (readCallback : value) (w : world) :
  legacy_only soljson ->
  callback_accepted readCallback = true ->
  JSON_parse H input = inr Demo.two_sources ->
  exists evs,
    trace (snd (compile H translate soljson input readCallback w)) = trace w ++ evs
    /\ native_calls evs = [("compileJSON", [VStr "x"; VUndefined])].
Proof.
  intros Hlegacy Hcb Hparse.
  unfold compile, compileStandardWrapper. cbv zeta.
  rewrite (legacy_only_methods _ Hlegacy).
  cbn [compileStandard compileJSON compileJSONMulti compileJSONCallback].
  rewrite (callback_guard _ Hcb).
  unfold bind at 1. unfold js_parse, bind at 1, emit, ret. cbn [fst snd fptrs trace].
  rewrite Hparse.
  change (get_prop Demo.two_sources "language") with (@Ok value (VStr "Solidity")).
  rewrite bind_lift_Ok.
  change (negb (strict_eq_str (VStr "Solidity") "Solidity")) with false. cbv iota.
  change (noInputSpecified Demo.two_sources) with (@Ok bool false).
  rewrite bind_lift_Ok. cbv iota.
  change (multipleSources H Demo.two_sources) with (@Ok bool false).
  rewrite bind_lift_Ok. cbn [andb].
  change (translateSources Demo.two_sources)
    with (@Ok value (VObj [("a.sol", VStr "x"); ("b.sol", VStr "y")])).
  rewrite bind_lift_Ok.
  change (is_null (VObj [("a.sol", VStr "x"); ("b.sol", VStr "y")])
          || (length (enumerable_keys (VObj [("a.sol", VStr "x"); ("b.sol", VStr "y")])) =? 0)%nat)
    with false. cbv iota.
  change (librariesSupplied Demo.two_sources) with (@Ok value VUndefined).
  rewrite bind_lift_Ok.
  change (get_prop (VObj [("a.sol", VStr "x"); ("b.sol", VStr "y")])
            (nth 0 (enumerable_keys (VObj [("a.sol", VStr "x"); ("b.sol", VStr "y")]))
               "undefined"))
    with (@Ok value (VStr "x")).
  rewrite bind_lift_Ok.
  change (isOptimizerEnabled Demo.two_sources) with (@Ok value VUndefined).
  rewrite bind_lift_Ok.
  unfold bind, cwrap, bind, emit. cbn [fst snd fptrs trace].
  destruct (native soljson "compileJSON" [VStr "x"; VUndefined] (fptrs w)) as [out|e].
  - match goal with
    | |- context [translateOutput H translate out ?s ?w2] =>
        destruct (translateOutput_quiet H translate out s w2) as (evs & E & Hq & _)
    end.
    exists ([EvJSONParse input; EvNative "compileJSON" [VStr "x"; VUndefined]] ++ evs).
    rewrite E. cbn [trace]. rewrite <- !app_assoc. split; [reflexivity|].
    rewrite native_calls_app, Hq. reflexivity.
  - exists [EvJSONParse input; EvNative "compileJSON" [VStr "x"; VUndefined]].
    cbn [snd trace]. rewrite <- !app_assoc. split; reflexivity.
Qed.

(** C8, as amended.  Against a handle without a standard-JSON function and
    with the callback left out or a function, every input that parses to a
    document whose language field can be read (any document but [null])
    and is not "Solidity" is answered with the fatal response "Only
    Solidity sources are supported", right after the input is parsed and
    without any native call. *)
Theorem unsupported_language_rejected (H : Host) (translate : Translate)
    (soljson : Module) (input : string) (readCallback : value) (w : world)
    (request language : value) :
  compileStandard (setupMethods soljson) = None ->
  callback_accepted readCallback = true ->
  JSON_parse H input = inr request ->
  get_prop request "language" = Ok language ->
  language <> VStr "Solidity" ->
  let run := compile H translate soljson input readCallback w in
  run = (Ok (formatFatalError H "Only Solidity sources are supported"),
         {| fptrs := fptrs w; trace := trace w ++ [EvJSONParse input] |})
  /\ native_calls (trace (snd run)) = native_calls (trace w).
Proof.
  intros Hstd Hcb Hparse Hlang Hne run.
  assert (E : run = (Ok (formatFatalError H "Only Solidity sources are supported"),
                     {| fptrs := fptrs w; trace := trace w ++ [EvJSONParse input] |})).
  { subst run. degraded Hstd Hcb Hparse.
    rewrite Hlang, (strict_eq_str_false _ _ Hne). reflexivity. }
  split; [exact E|].
  rewrite E. simpl. rewrite native_calls_app. simpl. apply app_nil_r.
Qed.

(** C9.  Without a standard-JSON function, a callback argument that is
    defined but is not a function is answered with the fatal response
    "Invalid import callback supplied": a value is returned, nothing is
    thrown, and the world is untouched, so the input has not been parsed
    and no native entry point has been called. *)
Theorem invalid_callback_rejected_before_parsing (H : Host) (translate : Translate)
    (soljson : Module) (input : string) (readCallback : value) (w : world) :
  compileStandard (setupMethods soljson) = None ->
  readCallback <> VUndefined ->
  typeof readCallback <> "function" ->
  compile H translate soljson input readCallback w =
    (Ok (VStr (JSON_stringify H (fatalError "Invalid import callback supplied"))), w).
Proof.
  intros Hstd Hdef Hfun.
  unfold compile, compileStandardWrapper. cbv zeta. rewrite Hstd.
  assert (E1 : is_undefined readCallback = false).
  { destruct readCallback; try reflexivity. contradiction. }
  assert (E2 : (typeof readCallback =? "function") = false).
  { apply String.eqb_neq. exact Hfun. }
  rewrite E1, E2. reflexivity.
Qed.

(** ** Concrete runs *)

(** The demo reader maps the request texts to the values used above. *)
Lemma demo_requests_parse :
  Demo.parse Demo.single_source_request = inr Demo.single_source
  /\ Demo.parse Demo.two_sources_request = inr Demo.two_sources
  /\ Demo.parse Demo.empty_sources_request
     = inr (VObj [("language", VStr "Solidity"); ("sources", VObj [])])
  /\ Demo.parse Demo.yul_request
     = inr (VObj [("language", VStr "Yul");
                  ("sources", VObj [("a.yul", VObj [("content", VStr "{}")])])]).
Proof. repeat split; vm_compute; reflexivity. Qed.

(** Both exits of a bridged call: a module that answers, and one that
    faults. *)
Lemma bridge_deregistered_witness :
  let answering := Demo.module ["_solidity_compile"] (Ok "{}") in
  let faulting := Demo.module ["_solidity_compile"] (Throw (Thrown (VStr "abort"))) in
  wrapCallback (if is_undefined VUndefined then VFun DefaultReadCallback else VUndefined)
    = Ok (Bridged DefaultReadCallback)
  /\ first_free (fptrs Demo.w0) = Some 0
  /\ (let run := runWithReadCallback VUndefined (cwrap answering "solidity_compile")
                   [VStr "{}"] Demo.w0 in
      fst run = Ok "{}"
      /\ trace (snd run) = [EvAddFunction (Bridged DefaultReadCallback) 0;
                            EvNative "solidity_compile" [VStr "{}"; num_of_nat 0];
                            EvRemoveFunction 0]
      /\ count_occ Nat.eq_dec (removed_pointers (trace (snd run))) 0 = 1
      /\ fptrs (snd run) = fptrs Demo.w0
      /\ fptrs (snd run) !! 0 = Some None)
  /\ (let run := runWithReadCallback VUndefined (cwrap faulting "solidity_compile")
                   [VStr "{}"] Demo.w0 in
      fst run = Throw (Thrown (VStr "abort"))
      /\ trace (snd run) = [EvAddFunction (Bridged DefaultReadCallback) 0;
                            EvNative "solidity_compile" [VStr "{}"; num_of_nat 0];
                            EvRemoveFunction 0]
      /\ count_occ Nat.eq_dec (removed_pointers (trace (snd run))) 0 = 1
      /\ fptrs (snd run) = fptrs Demo.w0
      /\ fptrs (snd run) !! 0 = Some None).
Proof.
  intros answering faulting.
  split; [reflexivity|]. split; [reflexivity|]. split.
  - exact (bridge_deregistered_exactly_once answering VUndefined "solidity_compile"
             [VStr "{}"] Demo.w0 (Bridged DefaultReadCallback) 0 eq_refl eq_refl).
  - exact (bridge_deregistered_exactly_once faulting VUndefined "solidity_compile"
             [VStr "{}"] Demo.w0 (Bridged DefaultReadCallback) 0 eq_refl eq_refl).
Defined.

(** A handle that exports both standard-JSON symbols. *)
Lemma newest_standard_symbol_witness :
  let both := Demo.module ["_compileStandard"; "_solidity_compile"] (Ok "{}") in
  exports both "_compileStandard" = true
  /\ exports both "_solidity_compile" = true
  /\ compileStandard (setupMethods both) = Some "solidity_compile"
  /\ forall input readCallback w,
       exists evs,
         trace (snd (compile Demo.host Demo.translator both input readCallback w))
           = trace w ++ evs
         /\ forall ident args,
              In (ident, args) (native_calls evs) ->
              ident = "solidity_compile" /\ ident <> "compileStandard".
Proof.
  intros both. split; [reflexivity|]. split; [reflexivity|].
  exact (newest_standard_symbol_wins Demo.host Demo.translator both eq_refl eq_refl).
Defined.

(** C8 as stated fails when the handle has a standard-JSON function: the
    request in another language is handed to [solidity_compile] as it is,
    and the answer of the native side is returned. *)
Lemma unsupported_language_reaches_native_standard :
  let standard := Demo.module ["_solidity_compile"] (Ok "{}") in
  let run := compile Demo.host Demo.translator standard Demo.yul_request VUndefined Demo.w0 in
  (exists request,
      Demo.parse Demo.yul_request = inr request
      /\ get_prop request "language" = Ok (VStr "Yul"))
  /\ fst run = Ok (VStr "{}")
  /\ native_calls (trace (snd run))
     = [("solidity_compile", [VStr Demo.yul_request; num_of_nat 0])]
  /\ ~ (fst run = Ok (formatFatalError Demo.host "Only Solidity sources are supported")
        /\ native_calls (trace (snd run)) = []).
Proof.
  intros standard run. split; [|split; [|split]].
  - eexists. split; vm_compute; reflexivity.
  - vm_compute. reflexivity.
  - vm_compute. reflexivity.
  - intros [_ Hnone]. vm_compute in Hnone. discriminate Hnone.
Qed.

(** The same request against a handle with the legacy entry point only. *)
Lemma unsupported_language_witness :
  let legacy := Demo.module ["_compileJSON"] (Ok "{}") in
  let request := VObj [("language", VStr "Yul");
                       ("sources", VObj [("a.yul", VObj [("content", VStr "{}")])])] in
  compileStandard (setupMethods legacy) = None
  /\ callback_accepted VUndefined = true
  /\ JSON_parse Demo.host Demo.yul_request = inr request
  /\ get_prop request "language" = Ok (VStr "Yul")
  /\ VStr "Yul" <> VStr "Solidity"
  /\ (let run := compile Demo.host Demo.translator legacy Demo.yul_request VUndefined Demo.w0 in
      run = (Ok (formatFatalError Demo.host "Only Solidity sources are supported"),
             {| fptrs := fptrs Demo.w0;
                trace := trace Demo.w0 ++ [EvJSONParse Demo.yul_request] |})
      /\ native_calls (trace (snd run)) = native_calls (trace Demo.w0)).
Proof.
  intros legacy request.
  assert (Hparse : JSON_parse Demo.host Demo.yul_request = inr request)
    by (vm_compute; reflexivity).
  assert (Hne : VStr "Yul" <> VStr "Solidity") by discriminate.
  split; [reflexivity|]. split; [reflexivity|]. split; [exact Hparse|].
  split; [reflexivity|]. split; [exact Hne|].
  exact (unsupported_language_rejected Demo.host Demo.translator legacy Demo.yul_request
           VUndefined Demo.w0 request (VStr "Yul") eq_refl eq_refl Hparse eq_refl Hne).
Defined.

(** [null] as callback and an input that is not JSON at all. *)
Lemma invalid_callback_witness :
  let legacy := Demo.module ["_compileJSON"] (Ok "{}") in
  compileStandard (setupMethods legacy) = None
  /\ VNull <> VUndefined
  /\ typeof VNull <> "function"
  /\ compile Demo.host Demo.translator legacy "not json" VNull Demo.w0
     = (Ok (VStr (JSON_stringify Demo.host (fatalError "Invalid import callback supplied"))),
        Demo.w0).
Proof.
  intros legacy.
  assert (Hdef : VNull <> VUndefined) by discriminate.
  assert (Hfun : typeof VNull <> "function") by discriminate.
  split; [reflexivity|]. split; [exact Hdef|]. split; [exact Hfun|].
  exact (invalid_callback_rejected_before_parsing Demo.host Demo.translator legacy
           "not json" VNull Demo.w0 eq_refl Hdef Hfun).
Defined.

(** The scenario request against a handle with every degraded entry
    point. *)
Lemma request_without_settings_witness :
  let degraded := Demo.module ["_compileJSON"; "_compileJSONMulti"; "_compileJSONCallback"]
                    (Ok "{}") in
  compileStandard (setupMethods degraded) = None
  /\ callback_accepted VUndefined = true
  /\ JSON_parse Demo.host Demo.single_source_request = inr Demo.single_source
  /\ get_prop Demo.single_source "language" = Ok (VStr "Solidity")
  /\ noInputSpecified Demo.single_source = Ok false
  /\ multipleSources Demo.host Demo.single_source = Ok false
  /\ translateSources Demo.single_source = Ok (VObj [("a.sol", VStr "x")])
  /\ is_null (VObj [("a.sol", VStr "x")])
     || (length (enumerable_keys (VObj [("a.sol", VStr "x")])) =? 0)%nat = false
  /\ get_prop Demo.single_source "settings" = Ok VUndefined
  /\ (let run := compile Demo.host Demo.translator degraded
                   Demo.single_source_request VUndefined Demo.w0 in
      fst run = Throw (TypeError "Cannot read property 'libraries' of undefined")
      /\ native_calls (trace (snd run)) = native_calls (trace Demo.w0)).
Proof.
  intros degraded.
  assert (Hparse : JSON_parse Demo.host Demo.single_source_request = inr Demo.single_source)
    by (vm_compute; reflexivity).
  do 9 (split; [first [exact Hparse | reflexivity]|]).
  exact (request_without_settings_throws Demo.host Demo.translator degraded
           Demo.single_source_request VUndefined Demo.w0 Demo.single_source
           (VObj [("a.sol", VStr "x")])
           eq_refl eq_refl Hparse eq_refl eq_refl eq_refl eq_refl eq_refl eq_refl).
Defined.

(** The scenario request against a handle with the legacy entry point
    only. *)
Lemma scenario_request_witness :
  let legacy := Demo.module ["_compileJSON"] (Ok "{}") in
  legacy_only legacy
  /\ callback_accepted VUndefined = true
  /\ JSON_parse Demo.host Demo.single_source_request = inr Demo.single_source
  /\ (let run := compile Demo.host Demo.translator legacy
                   Demo.single_source_request VUndefined Demo.w0 in
      fst run = Throw (TypeError "Cannot read property 'libraries' of undefined")
      /\ trace (snd run) = trace Demo.w0 ++ [EvJSONParse Demo.single_source_request]
      /\ native_calls (trace (snd run)) = native_calls (trace Demo.w0)
      /\ translate_calls (trace (snd run)) = translate_calls (trace Demo.w0)).
Proof.
  intros legacy.
  assert (Hlegacy : legacy_only legacy) by (repeat split; reflexivity).
  assert (Hparse : JSON_parse Demo.host Demo.single_source_request = inr Demo.single_source)
    by (vm_compute; reflexivity).
  split; [exact Hlegacy|]. split; [reflexivity|]. split; [exact Hparse|].
  exact (scenario_request_never_reaches_legacy_compiler Demo.host Demo.translator legacy
           Demo.single_source_request VUndefined Demo.w0 Hlegacy eq_refl Hparse).
Defined.

(** The empty mapping against a handle that could take several sources. *)
Lemma empty_sources_mapping_witness :
  let multi := Demo.module ["_compileJSON"; "_compileJSONMulti"] (Ok "{}") in
  let request := VObj [("language", VStr "Solidity"); ("sources", VObj [])] in
  compileStandard (setupMethods multi) = None
  /\ callback_accepted VUndefined = true
  /\ JSON_parse Demo.host Demo.empty_sources_request = inr request
  /\ get_prop request "language" = Ok (VStr "Solidity")
  /\ get_prop request "sources" = Ok (VObj [])
  /\ compile Demo.host Demo.translator multi Demo.empty_sources_request VUndefined Demo.w0
     = (Ok (formatFatalError Demo.host "Failed to process sources"),
        {| fptrs := fptrs Demo.w0;
           trace := trace Demo.w0 ++ [EvJSONParse Demo.empty_sources_request] |}).
Proof.
  intros multi request.
  assert (Hparse : JSON_parse Demo.host Demo.empty_sources_request = inr request)
    by (vm_compute; reflexivity).
  do 5 (split; [first [exact Hparse | reflexivity]|]).
  exact (empty_sources_mapping_response Demo.host Demo.translator multi
           Demo.empty_sources_request VUndefined Demo.w0 request
           eq_refl eq_refl Hparse eq_refl eq_refl).
Defined.

(** Two sources against a handle with the legacy entry point only. *)
Lemma two_sources_witness :
  let legacy := Demo.module ["_compileJSON"] (Ok "{}") in
  legacy_only legacy
  /\ callback_accepted VUndefined = true
  /\ JSON_parse Demo.host Demo.two_sources_request = inr Demo.two_sources
  /\ exists evs,
       trace (snd (compile Demo.host Demo.translator legacy
                     Demo.two_sources_request VUndefined Demo.w0))
         = trace Demo.w0 ++ evs
       /\ native_calls evs = [("compileJSON", [VStr "x"; VUndefined])].
Proof.
  intros legacy.
  assert (Hlegacy : legacy_only legacy) by (repeat split; reflexivity).
  assert (Hparse : JSON_parse Demo.host Demo.two_sources_request = inr Demo.two_sources)
    by (vm_compute; reflexivity).
  split; [exact Hlegacy|]. split; [reflexivity|]. split; [exact Hparse|].
  exact (two_sources_reach_legacy_compiler Demo.host Demo.translator legacy
           Demo.two_sources_request VUndefined Demo.w0 Hlegacy eq_refl Hparse).
Defined.

(** The two fatal responses of C2 are different documents, and the run on
    the two sources of C3 returns the translated answer of the legacy
    compiler rather than a fatal response. *)
Lemma slipped_length_checks_example :
  let legacy := Demo.module ["_compileJSON"] (Ok "{}") in
  formatFatalError Demo.host "Failed to process sources"
    <> formatFatalError Demo.host "No input specified"
  /\ compile Demo.host Demo.translator legacy Demo.two_sources_request VUndefined Demo.w0
     = (Ok (js_stringify Demo.host (VObj [("contracts", VObj [])])),
        {| fptrs := fptrs Demo.w0;
           trace := [EvJSONParse Demo.two_sources_request;
                     EvNative "compileJSON" [VStr "x"; VUndefined];
                     EvJSONParse "{}";
                     EvTranslate [VObj []]] |}).
Proof.
  intros legacy. split.
  - intros E. vm_compute in E. discriminate E.
  - vm_compute. reflexivity.
Qed.

(** The library addresses of a request are read from its settings and
    then dropped: the translator is called with the native output alone,
    although with the addresses it would have linked them. *)
Lemma library_addresses_dropped_example :
  let multi := Demo.module ["_compileJSON"; "_compileJSONMulti"] (Ok "{}") in
  let run := compile Demo.host Demo.translator multi Demo.library_request VUndefined Demo.w0 in
  (exists request,
      Demo.parse Demo.library_request = inr request
      /\ librariesSupplied request = Ok Demo.library_addresses)
  /\ translate_calls (trace (snd run)) = [[VObj []]]
  /\ fst run = Ok (js_stringify Demo.host (VObj [("contracts", VObj [])]))
  /\ translateJsonCompilerOutput Demo.translator [VObj []; Demo.library_addresses]
     = Ok (VObj [("contracts", VObj []); ("linked", Demo.library_addresses)]).
Proof.
  intros multi run. split; [|split; [|split]].
  - eexists. split; vm_compute; reflexivity.
  - vm_compute. reflexivity.
  - vm_compute. reflexivity.
  - reflexivity.
Qed.

(** With settings present, each capability record sends the request to its
    preferred entry point. *)
Lemma preferred_entry_point_called_example :
  let run symbols :=
    compile Demo.host Demo.translator (Demo.module symbols (Ok "{}"))
      Demo.two_sources_request VUndefined Demo.w0 in
  let called symbols := map fst (native_calls (trace (snd (run symbols)))) in
  called ["_compileJSON"; "_compileJSONMulti"; "_compileJSONCallback"; "_compileStandard"]
    = ["compileStandard"]
  /\ called ["_compileJSON"; "_compileJSONMulti"; "_compileJSONCallback"]
     = ["compileJSONCallback"]
  /\ called ["_compileJSON"; "_compileJSONMulti"] = ["compileJSONMulti"]
  /\ called ["_compileJSON"] = ["compileJSON"]
  /\ called [] = [].
Proof. repeat split; vm_compute; reflexivity. Qed.

(** Two more parseable inputs on which a TypeError escapes from the
    validation itself: the document [null], and a source whose entry is
    [null]. *)
Lemma validation_throws_example :
  let legacy := Demo.module ["_compileJSON"] (Ok "{}") in
  let null_entry :=
    ("{" ++ Demo.q "language" ++ ":" ++ Demo.q "Solidity" ++ ","
         ++ Demo.q "sources" ++ ":{" ++ Demo.q "a.sol" ++ ":null},"
         ++ Demo.q "settings" ++ ":{}}")%string in
  compile Demo.host Demo.translator legacy "null" VUndefined Demo.w0
    = (Throw (TypeError "Cannot read property 'language' of null"),
       {| fptrs := fptrs Demo.w0; trace := [EvJSONParse "null"] |})
  /\ compile Demo.host Demo.translator legacy null_entry VUndefined Demo.w0
     = (Throw (TypeError "Cannot read property 'content' of null"),
        {| fptrs := fptrs Demo.w0; trace := [EvJSONParse null_entry] |}).
Proof. split; vm_compute; reflexivity. Qed.

(** * Further properties of the wrapper *)

(** ** The function-pointer table across a whole [compile] *)

Lemma preserves_ret {A : Type} (a : A) : preserves_table (ret a).
Proof. intros w. reflexivity. Qed.

Lemma preserves_lift {A : Type} (r : result A) : preserves_table (lift r).
Proof. intros w. reflexivity. Qed.

Lemma preserves_emit (e : event) : preserves_table (emit e).
Proof. intros w. reflexivity. Qed.

Lemma preserves_bind {A B : Type} (m : M A) (k : A -> M B) :
  preserves_table m -> (forall a, preserves_table (k a)) -> preserves_table (bind m k).
Proof.
  intros Hm Hk w. unfold bind. specialize (Hm w).
  destruct (m w) as [[a|e] w1]; simpl in *.
  - rewrite Hk. exact Hm.
  - exact Hm.
Qed.

Lemma preserves_cwrap (soljson : Module) (ident : string) (args : list value) :
  preserves_table (cwrap soljson ident args).
Proof. intros w. reflexivity. Qed.

Lemma preserves_runWithReadCallback (soljson : Module) (readCallback : value)
    (ident : string) (args : list value) :
  preserves_table (runWithReadCallback readCallback (cwrap soljson ident) args).
Proof.
  intros w. rewrite runWithReadCallback_run.
  destruct (wrapCallback _) as [bridge|e]; [|reflexivity].
  destruct (first_free (fptrs w)) as [cb|] eqn:Hfree; [|reflexivity].
  simpl. apply first_free_restore. exact Hfree.
Qed.

Lemma preserves_translateOutput (H : Host) (translate : Translate)
    (output : string) (surplus : list value) :
  preserves_table (translateOutput H translate output surplus).
Proof.
  unfold translateOutput, js_parse.
  apply preserves_bind.
  - apply preserves_bind; [apply preserves_emit | intros; apply preserves_ret].
  - intros [msg|parsed]; [apply preserves_ret|].
    apply preserves_bind; [apply preserves_emit|]. intros _.
    apply preserves_bind; [apply preserves_lift|]. intros out.
    destruct (loosely_null out); apply preserves_ret.
Qed.

#[local] Hint Resolve preserves_ret preserves_lift preserves_emit preserves_cwrap
  preserves_runWithReadCallback preserves_translateOutput : log.

(** X1.  Whatever the handle, the input and the callback, and whether the
    run returns or throws, [compile] leaves the function-pointer table as
    it found it: no bridge stays registered. *)
Theorem compile_restores_table (H : Host) (translate : Translate) (soljson : Module)
    (input : string) (readCallback : value) (w : world) :
  fptrs (snd (compile H translate soljson input readCallback w)) = fptrs w.
Proof.
  revert w. change (preserves_table (compile H translate soljson input readCallback)).
  unfold compile, compileStandardWrapper, call_compileStandard, call_compileJSONCallback,
    js_parse.
  cbv zeta.
  repeat first
    [ apply preserves_ret
    | apply preserves_lift
    | apply preserves_emit
    | apply preserves_cwrap
    | apply preserves_runWithReadCallback
    | apply preserves_translateOutput
    | apply preserves_bind; [|intros ?]
    | match goal with
      | |- preserves_table (if ?c then _ else _) => destruct c
      | |- preserves_table (match ?x with _ => _ end) => destruct x
      end ].
Qed.

(** ** The standard-JSON path *)

Lemma bridge_of_wrapCallback (readCallback : value) (bridge : func) :
  bridge_of readCallback = Some bridge ->
  wrapCallback (if is_undefined readCallback
                then VFun DefaultReadCallback else readCallback) = Ok bridge.
Proof.
  destruct readCallback; simpl; intros E; try discriminate;
    injection E as <-; reflexivity.
Qed.

Lemma bridge_of_accepted (readCallback : value) :
  callback_accepted readCallback = true <-> exists bridge, bridge_of readCallback = Some bridge.
Proof.
  split.
  - destruct readCallback; simpl; intros E; try discriminate; eexists; reflexivity.
  - intros [bridge E]. destruct readCallback; simpl in *; try discriminate; reflexivity.
Qed.

(** X2.  With a standard-JSON function bound, [compile] hands the input
    text to it unchanged, followed by the pointer of the bridge, and
    returns its reply as it is: the input is not parsed, nothing is
    validated, the translator is not called, and a native fault is the
    outcome of [compile]. *)
Theorem standard_path_passes_through (H : Host) (translate : Translate)
    (soljson : Module) (input : string) (readCallback : value) (w : world)
    (std : string) (bridge : func) (cb : nat) :
  compileStandard (setupMethods soljson) = Some std ->
  bridge_of readCallback = Some bridge ->
  first_free (fptrs w) = Some cb ->
  compile H translate soljson input readCallback w =
    (match native soljson std [VStr input; num_of_nat cb] (<[cb := Some bridge]> (fptrs w)) with
     | Ok reply => Ok (VStr reply)
     | Throw e => Throw e
     end,
     {| fptrs := fptrs w;
        trace := trace w ++ [EvAddFunction bridge cb;
                             EvNative std [VStr input; num_of_nat cb];
                             EvRemoveFunction cb] |}).
Proof.
  intros Hstd Hbridge Hfree.
  unfold compile, compileStandardWrapper. cbv zeta. rewrite Hstd.
  unfold bind at 1, call_compileStandard.
  rewrite runWithReadCallback_run, (bridge_of_wrapCallback _ _ Hbridge), Hfree.
  rewrite (first_free_restore _ _ _ Hfree). simpl.
  destruct (native soljson std _ _); reflexivity.
Qed.

(** X3.  With a standard-JSON function bound, a callback argument that is
    defined but is not a function makes [compile] throw the assertion
    error of [wrapCallback]; nothing is registered and nothing is called.
    (Without such a function the same argument is answered with a fatal
    response.) *)
Theorem standard_path_invalid_callback_throws (H : Host) (translate : Translate)
    (soljson : Module) (input : string) (readCallback : value) (w : world)
    (std : string) :
  compileStandard (setupMethods soljson) = Some std ->
  readCallback <> VUndefined ->
  typeof readCallback <> "function" ->
  compile H translate soljson input readCallback w =
    (Throw (AssertionError "Invalid callback specified."), w).
Proof.
  intros Hstd Hdef Hfun.
  unfold compile, compileStandardWrapper. cbv zeta. rewrite Hstd.
  unfold bind at 1, call_compileStandard. rewrite runWithReadCallback_run.
  destruct readCallback; try contradiction; reflexivity.
Qed.

(** ** The degraded path: responses to bad input *)

(** X4.  Without a standard-JSON function, an input that is not JSON is
    answered with the fatal response "Invalid JSON supplied: " followed by
    the message of the parser; no native call is made. *)
Theorem invalid_json_input_response (H : Host) (translate : Translate)
    (soljson : Module) (input : string) (readCallback : value) (w : world)
    (msg : string) :
  compileStandard (setupMethods soljson) = None ->
  callback_accepted readCallback = true ->
  JSON_parse H input = inl msg ->
  compile H translate soljson input readCallback w =
    (Ok (formatFatalError H ("Invalid JSON supplied: " ++ msg)),
     {| fptrs := fptrs w; trace := trace w ++ [EvJSONParse input] |}).
Proof.
  intros Hstd Hcb Hparse.
  degraded Hstd Hcb Hparse. reflexivity.
Qed.

(** ** The degraded path: a request that passes validation *)

Lemma translateOutput_run (H : Host) (translate : Translate) (reply : string)
    (surplus : list value) (w : world) :
  translateOutput H translate reply surplus w =
    (output_response H translate reply,
     {| fptrs := fptrs w; trace := trace w ++ output_events H reply |}).
Proof.
  unfold translateOutput, output_response, output_events, bind, js_parse, bind, emit,
    ret, lift. simpl.
  destruct (JSON_parse H reply) as [msg|parsed]; [reflexivity|]. simpl.
  rewrite <- app_assoc. simpl.
  destruct (translateJsonCompilerOutput translate [parsed]) as [translated|e];
    [|reflexivity].
  destruct (loosely_null translated); reflexivity.
Qed.

(** After validation the run is the call of the first bound entry point
    followed by [translateOutput]. *)
Lemma degraded_run (H : Host) (translate : Translate) (soljson : Module)
    (input : string) (readCallback : value) (w : world) (request : value)
    (props : list (string * value)) (libraries optimize : value) :
  compileStandard (setupMethods soljson) = None ->
  callback_accepted readCallback = true ->
  JSON_parse H input = inr request ->
  passes_validation H (setupMethods soljson) request props libraries optimize ->
  compile H translate soljson input readCallback w =
    (let bundle := js_stringify H (VObj [("sources", VObj props)]) in
     match compileJSONCallback (setupMethods soljson) with
     | Some cb =>
         let! output := call_compileJSONCallback soljson cb bundle optimize readCallback in
         translateOutput H translate output [libraries]
     | None =>
         match compileJSONMulti (setupMethods soljson) with
         | Some multi =>
             let! output := cwrap soljson multi [bundle; optimize] in
             translateOutput H translate output [libraries]
         | None =>
             match compileJSON (setupMethods soljson) with
             | Some single =>
                 let! output := cwrap soljson single [first_source props; optimize] in
                 translateOutput H translate output [libraries]
             | None =>
                 ret (formatFatalError H "Compiler does not support any known interface.")
             end
         end
     end) {| fptrs := fptrs w; trace := trace w ++ [EvJSONParse input] |}.
Proof.
  intros Hstd Hcb Hparse (Hlang & Hempty & (many & Hmany & Hbail) & Hsrc & Hkeys & Hlib & Hopt).
  unfold compile, compileStandardWrapper. cbv zeta.
  rewrite Hstd, (callback_guard _ Hcb).
  unfold bind at 1. unfold js_parse, bind at 1, emit, ret. cbn [fst snd fptrs trace].
  rewrite Hparse, Hlang, bind_lift_Ok.
  change (negb (strict_eq_str (VStr "Solidity") "Solidity")) with false. cbv iota.
  rewrite Hempty, bind_lift_Ok. cbv iota.
  rewrite Hmany, bind_lift_Ok.
  assert (Hb : many && match compileJSONMulti (setupMethods soljson) with
                        | Some _ => false
                        | None => true
                        end = false)
    by (destruct (compileJSONMulti (setupMethods soljson)); exact Hbail).
  rewrite Hb. cbv iota.
  rewrite Hsrc, bind_lift_Ok.
  replace (is_null (VObj props) || (length (enumerable_keys (VObj props)) =? 0)%nat)
    with false
    by (simpl; destruct (own_keys props); [contradiction | reflexivity]).
  cbv iota.
  rewrite Hlib, bind_lift_Ok, Hopt.
  destruct (compileJSONCallback (setupMethods soljson)) as [cb|].
  { rewrite bind_lift_Ok. reflexivity. }
  destruct (compileJSONMulti (setupMethods soljson)) as [multi|].
  { rewrite bind_lift_Ok. reflexivity. }
  destruct (compileJSON (setupMethods soljson)) as [single|]; [|reflexivity].
  change (get_prop (VObj props) (nth 0 (enumerable_keys (VObj props)) "undefined"))
    with (@Ok value (first_source props)).
  rewrite !bind_lift_Ok. reflexivity.
Qed.

(** The whole run on a request that passes validation, by the outcome of
    the one native call. *)
Lemma degraded_call_run (H : Host) (translate : Translate) (soljson : Module)
    (input : string) (readCallback : value) (w : world) (request : value)
    (props : list (string * value)) (libraries optimize : value)
    (entry : entry_point) (ident : string) (bridge : func) (cb : nat) :
  compileStandard (setupMethods soljson) = None ->
  bridge_of readCallback = Some bridge ->
  JSON_parse H input = inr request ->
  passes_validation H (setupMethods soljson) request props libraries optimize ->
  preferred (setupMethods soljson) = Some (entry, ident) ->
  (entry = CallbackAugmented -> first_free (fptrs w) = Some cb) ->
  let args := entry_arguments H entry props optimize cb in
  compile H translate soljson input readCallback w =
    match native soljson ident args (entry_table entry bridge cb (fptrs w)) with
    | Ok reply =>
        (output_response H translate reply,
         {| fptrs := fptrs w;
            trace := trace w ++ EvJSONParse input
                       :: entry_events entry ident args bridge cb ++ output_events H reply |})
    | Throw e =>
        (Throw e,
         {| fptrs := fptrs w;
            trace := trace w ++ EvJSONParse input
                       :: entry_events entry ident args bridge cb |})
    end.
Proof.
  intros Hstd Hbridge Hparse Hvalid Hpref Hfree args. subst args.
  assert (Hcb : callback_accepted readCallback = true)
    by (apply bridge_of_accepted; eauto).
  rewrite (degraded_run H translate soljson input readCallback w request props
             libraries optimize Hstd Hcb Hparse Hvalid).
  unfold preferred, preference_order, first_bound, bound in Hpref.
  rewrite Hstd in Hpref. cbv zeta.
  destruct (compileJSONCallback (setupMethods soljson)) as [cbk|].
  { injection Hpref as <- <-. specialize (Hfree eq_refl).
    unfold bind at 1, call_compileJSONCallback.
    rewrite runWithReadCallback_run, (bridge_of_wrapCallback _ _ Hbridge).
    cbn [fptrs trace]. rewrite Hfree, (first_free_restore _ _ _ Hfree).
    cbn [entry_arguments entry_table entry_events app].
    destruct (native soljson cbk _ _) as [reply|e].
    - rewrite translateOutput_run. cbn [fptrs trace].
      rewrite <- !app_assoc. reflexivity.
    - rewrite <- !app_assoc. reflexivity. }
  destruct (compileJSONMulti (setupMethods soljson)) as [multi|].
  { injection Hpref as <- <-.
    unfold bind at 1, cwrap, bind at 1, emit. cbn [fst snd fptrs trace].
    cbn [entry_arguments entry_table entry_events app].
    destruct (native soljson multi _ _) as [reply|e].
    - rewrite translateOutput_run. cbn [fptrs trace].
      rewrite <- !app_assoc. reflexivity.
    - rewrite <- !app_assoc. reflexivity. }
  destruct (compileJSON (setupMethods soljson)) as [single|]; [|discriminate].
  injection Hpref as <- <-.
  unfold bind at 1, cwrap, bind at 1, emit. cbn [fst snd fptrs trace].
  cbn [entry_arguments entry_table entry_events app].
  destruct (native soljson single _ _) as [reply|e].
  - rewrite translateOutput_run. cbn [fptrs trace].
    rewrite <- !app_assoc. reflexivity.
  - rewrite <- !app_assoc. reflexivity.
Qed.

Lemma native_calls_output_events (H : Host) (reply : string) :
  native_calls (output_events H reply) = [].
Proof. unfold output_events. destruct (JSON_parse H reply); reflexivity. Qed.

Lemma registrations_output_events (H : Host) (reply : string) :
  registrations (output_events H reply) = [].
Proof. unfold output_events. destruct (JSON_parse H reply); reflexivity. Qed.

Lemma registrations_app (a b : list event) :
  registrations (a ++ b) = registrations a ++ registrations b.
Proof. apply flat_map_app. Qed.

(** X5.  On a request that passes validation and has a settings block
    (one that is not [undefined], so that [librariesSupplied] returns), the
    one native call goes to the preferred entry point with these
    arguments: the callback-augmented
    one gets the sources bundle, the optimizer flag and the pointer of the
    bridge; the multi-input one the bundle and the flag; the legacy one
    the content of the first source and the flag.  Only the
    callback-augmented path registers the caller's callback; on the two
    others the callback is not used. *)
Theorem degraded_call_arguments (H : Host) (translate : Translate) (soljson : Module)
    (input : string) (readCallback : value) (w : world) (request : value)
    (props : list (string * value)) (libraries optimize : value)
    (entry : entry_point) (ident : string) (bridge : func) (cb : nat) :
  compileStandard (setupMethods soljson) = None ->
  bridge_of readCallback = Some bridge ->
  JSON_parse H input = inr request ->
  passes_validation H (setupMethods soljson) request props libraries optimize ->
  preferred (setupMethods soljson) = Some (entry, ident) ->
  (entry = CallbackAugmented -> first_free (fptrs w) = Some cb) ->
  exists evs,
    trace (snd (compile H translate soljson input readCallback w)) = trace w ++ evs
    /\ native_calls evs = [(ident, entry_arguments H entry props optimize cb)]
    /\ registrations evs = match entry with
                           | CallbackAugmented => [bridge]
                           | _ => []
                           end.
Proof.
  intros Hstd Hbridge Hparse Hvalid Hpref Hfree.
  rewrite (degraded_call_run H translate soljson input readCallback w request props
             libraries optimize entry ident bridge cb Hstd Hbridge Hparse Hvalid Hpref Hfree).
  destruct (native soljson ident _ _) as [reply|e]; cbn [snd trace];
    eexists; (split; [reflexivity|]).
  - change (EvJSONParse input :: ?l) with ([EvJSONParse input] ++ l).
    rewrite !native_calls_app, !registrations_app,
      native_calls_output_events, registrations_output_events.
    destruct entry; split; reflexivity.
  - destruct entry; split; reflexivity.
Qed.

(** X6.  On a request that passes validation, the response is decided by
    the reply of the preferred entry point: a reply that is not JSON gives
    the fatal response "Compiler returned invalid JSON: " with the
    parser's message and the translator is not called; a reply the
    translator turns into [null] or [undefined] gives "Failed to process
    output"; otherwise the response is the translated output, serialised;
    an exception of the translator escapes. *)
Theorem degraded_reply_response (H : Host) (translate : Translate) (soljson : Module)
    (input : string) (readCallback : value) (w : world) (request : value)
    (props : list (string * value)) (libraries optimize : value)
    (entry : entry_point) (ident : string) (bridge : func) (cb : nat) (reply : string) :
  compileStandard (setupMethods soljson) = None ->
  bridge_of readCallback = Some bridge ->
  JSON_parse H input = inr request ->
  passes_validation H (setupMethods soljson) request props libraries optimize ->
  preferred (setupMethods soljson) = Some (entry, ident) ->
  (entry = CallbackAugmented -> first_free (fptrs w) = Some cb) ->
  native soljson ident (entry_arguments H entry props optimize cb)
    (entry_table entry bridge cb (fptrs w)) = Ok reply ->
  let run := compile H translate soljson input readCallback w in
  (forall msg,
      JSON_parse H reply = inl msg ->
      fst run = Ok (formatFatalError H ("Compiler returned invalid JSON: " ++ msg))
      /\ translate_calls (trace (snd run)) = translate_calls (trace w))
  /\ (forall parsed,
        JSON_parse H reply = inr parsed ->
        translate_calls (trace (snd run)) = translate_calls (trace w) ++ [[parsed]]
        /\ match translateJsonCompilerOutput translate [parsed] with
           | Ok translated =>
               fst run = Ok (if loosely_null translated
                             then formatFatalError H "Failed to process output"
                             else js_stringify H translated)
           | Throw e => fst run = Throw e
           end).
Proof.
  intros Hstd Hbridge Hparse Hvalid Hpref Hfree Hreply run. subst run.
  rewrite (degraded_call_run H translate soljson input readCallback w request props
             libraries optimize entry ident bridge cb Hstd Hbridge Hparse Hvalid Hpref Hfree).
  rewrite Hreply. cbn [fst snd trace].
  unfold output_response, output_events.
  assert (Hentry : translate_calls (entry_events entry ident
                      (entry_arguments H entry props optimize cb) bridge cb) = [])
    by (destruct entry; reflexivity).
  split.
  - intros msg Hmsg. rewrite Hmsg. split; [reflexivity|].
    change (EvJSONParse input :: ?l) with ([EvJSONParse input] ++ l).
    rewrite !translate_calls_app, Hentry. simpl. apply app_nil_r.
  - intros parsed Hparsed. rewrite Hparsed. split.
    + change (EvJSONParse input :: ?l) with ([EvJSONParse input] ++ l).
      rewrite !translate_calls_app, Hentry. reflexivity.
    + destruct (translateJsonCompilerOutput translate [parsed]) as [translated|e];
        [|reflexivity].
      destruct (loosely_null translated); reflexivity.
Qed.

(** X7.  On a request that passes validation, a fault of the native call
    is the outcome of [compile]: the exception escapes, the output is
    neither parsed nor translated, and on the callback-augmented path the
    bridge has been removed before the exception leaves. *)
Theorem degraded_native_fault_escapes (H : Host) (translate : Translate)
    (soljson : Module) (input : string) (readCallback : value) (w : world)
    (request : value) (props : list (string * value)) (libraries optimize : value)
    (entry : entry_point) (ident : string) (bridge : func) (cb : nat) (e : exn) :
  compileStandard (setupMethods soljson) = None ->
  bridge_of readCallback = Some bridge ->
  JSON_parse H input = inr request ->
  passes_validation H (setupMethods soljson) request props libraries optimize ->
  preferred (setupMethods soljson) = Some (entry, ident) ->
  (entry = CallbackAugmented -> first_free (fptrs w) = Some cb) ->
  native soljson ident (entry_arguments H entry props optimize cb)
    (entry_table entry bridge cb (fptrs w)) = Throw e ->
  compile H translate soljson input readCallback w =
    (Throw e,
     {| fptrs := fptrs w;
        trace := trace w ++ EvJSONParse input
                   :: match entry with
                      | CallbackAugmented =>
                          [EvAddFunction bridge cb;
                           EvNative ident (entry_arguments H entry props optimize cb);
                           EvRemoveFunction cb]
                      | _ => [EvNative ident (entry_arguments H entry props optimize cb)]
                      end |}).
Proof.
  intros Hstd Hbridge Hparse Hvalid Hpref Hfree Hfault.
  rewrite (degraded_call_run H translate soljson input readCallback w request props
             libraries optimize entry ident bridge cb Hstd Hbridge Hparse Hvalid Hpref Hfree).
  rewrite Hfault. destruct entry; reflexivity.
Qed.

(** X8.  A handle that binds no compile entry point at all answers a
    request that passes validation and has a settings block (one that is
    not [undefined], so that [librariesSupplied] returns) with the fatal
    response "Compiler does not support any known interface."; nothing is
    called. *)
Theorem no_interface_response (H : Host) (translate : Translate) (soljson : Module)
    (input : string) (readCallback : value) (w : world) (request : value)
    (props : list (string * value)) (libraries optimize : value) :
  preferred (setupMethods soljson) = None ->
  callback_accepted readCallback = true ->
  JSON_parse H input = inr request ->
  passes_validation H (setupMethods soljson) request props libraries optimize ->
  compile H translate soljson input readCallback w =
    (Ok (formatFatalError H "Compiler does not support any known interface."),
     {| fptrs := fptrs w; trace := trace w ++ [EvJSONParse input] |}).
Proof.
  intros Hpref Hcb Hparse Hvalid.
  unfold preferred, preference_order, first_bound, bound in Hpref.
  destruct (compileStandard (setupMethods soljson)) eqn:Hstd; [discriminate|].
  rewrite (degraded_run H translate soljson input readCallback w request props
             libraries optimize Hstd Hcb Hparse Hvalid).
  destruct (compileJSONCallback (setupMethods soljson)); [discriminate|].
  destruct (compileJSONMulti (setupMethods soljson)); [discriminate|].
  destruct (compileJSON (setupMethods soljson)); [discriminate|].
  reflexivity.
Qed.

(** ** Source extraction and the settings block *)



Lemma is_null_false (v : value) : is_null v = false <-> v <> VNull.
Proof.
  destruct v; simpl; split; intros E; try reflexivity; try discriminate;
    try contradiction.
Qed.

Lemma assoc_replace_prop (k k' : string) (v : value) (props : list (string * value)) :
  assoc k' (replace_prop k v props) = if k =? k' then Some v else assoc k' props.
Proof.
  induction props as [|[k0 v0] props IH]; simpl.
  - destruct (k =? k'); reflexivity.
  - destruct (k0 =? k) eqn:E0; simpl.
    + apply String.eqb_eq in E0. subst k0. destruct (k =? k'); reflexivity.
    + destruct (k0 =? k') eqn:E1.
      * apply String.eqb_eq in E1. subst k0. rewrite String.eqb_sym, E0. reflexivity.
      * exact IH.
Qed.

Lemma assoc_set_prop (k k' : string) (v : value) (props : list (string * value)) :
  assoc k' (set_prop props k v) =
    if k =? "__proto__" then assoc k' props
    else if k =? k' then Some v else assoc k' props.
Proof.
  unfold set_prop. destruct (k =? "__proto__"); [reflexivity|].
  apply assoc_replace_prop.
Qed.

(** The loop ends in [null] or in an object. *)
Lemma translateSources_loop_shape (srcs : value) (names : list string)
    (acc : list (string * value)) (v : value) :
  translateSources_loop srcs names acc = Ok v ->
  v = VNull \/ exists props, v = VObj props.
Proof.
  revert acc. induction names as [|k names IH]; intros acc; simpl.
  - intros E. injection E as <-. right. eexists. reflexivity.
  - destruct (get_prop srcs k) as [entry|e]; simpl; [|discriminate].
    destruct (get_prop entry "content") as [c|e]; simpl; [|discriminate].
    destruct (is_null c); simpl.
    + intros E. injection E as <-. left. reflexivity.
    + apply IH.
Qed.

Lemma translateSources_loop_sound (srcs : value) (names : list string)
    (acc props : list (string * value)) :
  translateSources_loop srcs names acc = Ok (VObj props) ->
  forall k c,
    assoc k props = Some c ->
    assoc k acc = Some c
    \/ (In k names /\ c <> VNull
        /\ exists entry, get_prop srcs k = Ok entry /\ get_prop entry "content" = Ok c).
Proof.
  revert acc. induction names as [|name names IH]; intros acc; simpl.
  - intros E k c Hk. injection E as <-. left. exact Hk.
  - destruct (get_prop srcs name) as [entry|e] eqn:Hentry; simpl; [|discriminate].
    destruct (get_prop entry "content") as [content|e] eqn:Hcontent; simpl; [|discriminate].
    destruct (is_null content) eqn:Hnull; simpl; [discriminate|].
    intros E k c Hk.
    destruct (IH _ E k c Hk) as [Hacc|(Hin & Hc & Hsrc)].
    + rewrite assoc_set_prop in Hacc.
      destruct (name =? "__proto__"); [left; exact Hacc|].
      destruct (name =? k) eqn:Ek; [|left; exact Hacc].
      apply String.eqb_eq in Ek. subst k. injection Hacc as <-.
      right. split; [left; reflexivity|]. split; [apply is_null_false; exact Hnull|].
      exists entry. split; assumption.
    + right. split; [right; exact Hin|]. split; [exact Hc | exact Hsrc].
Qed.

Lemma translateSources_loop_complete (srcs : value) (names : list string)
    (acc props : list (string * value)) :
  translateSources_loop srcs names acc = Ok (VObj props) ->
  forall k,
    (assoc k acc <> None \/ (In k names /\ k <> "__proto__")) ->
    assoc k props <> None.
Proof.
  revert acc. induction names as [|name names IH]; intros acc; simpl.
  - intros E k [Hacc|[[] _]]. injection E as <-. exact Hacc.
  - destruct (get_prop srcs name) as [entry|e]; simpl; [|discriminate].
    destruct (get_prop entry "content") as [content|e]; simpl; [|discriminate].
    destruct (is_null content); simpl; [discriminate|].
    intros E k Hk. apply (IH _ E k).
    rewrite assoc_set_prop.
    destruct Hk as [Hacc|[[->|Hin] Hproto]].
    + left. destruct (name =? "__proto__"); [exact Hacc|].
      destruct (name =? k); [discriminate | exact Hacc].
    + left. apply String.eqb_neq in Hproto. rewrite Hproto, String.eqb_refl. discriminate.
    + right. split; assumption.
Qed.

(** X9.  What [translateSources] hands on is the sources themselves: when
    it returns an object, every member is the non-null content of the
    source of the same name, and every source name (other than
    [__proto__], which an assignment cannot create) has a member. *)
Theorem translateSources_contents (request srcs : value) (props : list (string * value)) :
  get_prop request "sources" = Ok srcs ->
  translateSources request = Ok (VObj props) ->
  (forall k c,
      assoc k props = Some c ->
      In k (enumerable_keys srcs) /\ c <> VNull
      /\ exists entry, get_prop srcs k = Ok entry /\ get_prop entry "content" = Ok c)
  /\ (forall k, In k (enumerable_keys srcs) -> k <> "__proto__" -> assoc k props <> None).
Proof.
  intros Hsrcs. unfold translateSources. rewrite Hsrcs. simpl. intros Hloop. split.
  - intros k c Hk.
    destruct (translateSources_loop_sound _ _ _ _ Hloop k c Hk) as [Hacc|Hres].
    + discriminate Hacc.
    + exact Hres.
  - intros k Hin Hproto.
    apply (translateSources_loop_complete _ _ _ _ Hloop). right. split; assumption.
Qed.




(** X12.  On a request whose settings can be read, [librariesSupplied]
    throws exactly when the settings block is absent ([undefined]); a
    [null] block gives [undefined], any other value its [libraries]
    member. *)
Theorem librariesSupplied_throws_iff_absent (request settings : value) :
  get_prop request "settings" = Ok settings ->
  ((exists e, librariesSupplied request = Throw e) <-> settings = VUndefined)
  /\ (settings = VNull -> librariesSupplied request = Ok VUndefined)
  /\ (loosely_null settings = false ->
      librariesSupplied request = get_prop settings "libraries").
Proof.
  intros Hsettings. unfold librariesSupplied. rewrite Hsettings. simpl.
  split; [|split].
  - split.
    + intros [e He]. destruct settings; simpl in He; try discriminate He; reflexivity.
    + intros ->. eexists. reflexivity.
  - intros ->. reflexivity.
  - intros Hdef. destruct settings; simpl in *; try discriminate; reflexivity.
Qed.

(** ** Sources given as an array *)

Lemma num_of_nat_not_zero (n : nat) : 1 <= n -> strict_eq_num (num_of_nat n) 0 = false.
Proof.
  intros Hn. unfold strict_eq_num, num_of_nat.
  destruct (Qeq_bool (inject_Z (Z.of_nat n)) 0) eqn:E; [|reflexivity].
  apply Qeq_bool_iff in E. unfold Qeq in E. simpl in E. lia.
Qed.

Lemma num_of_nat_gt_one (H : Host) (n : nat) : 2 <= n -> gt_num H (num_of_nat n) 1 = true.
Proof.
  intros Hn. unfold gt_num, num_of_nat, ToNumber, Qltb.
  destruct (Qle_bool (inject_Z (Z.of_nat n)) 1) eqn:E; [|reflexivity].
  apply Qle_bool_iff in E. unfold Qle in E. simpl in E. lia.
Qed.

(** X13.  The two length checks of the validation fire when the sources
    are given as an array: an empty array is answered with "No input
    specified", and an array of two or more entries on a handle without
    the multi-input function with "Multiple sources provided, but compiler
    only supports single input"; in both cases nothing is called. *)
Theorem array_sources_length_checks (H : Host) (translate : Translate)
    (soljson : Module) (input : string) (readCallback : value) (w : world)
    (request : value) (elems : list value) :
  compileStandard (setupMethods soljson) = None ->
  callback_accepted readCallback = true ->
  JSON_parse H input = inr request ->
  get_prop request "language" = Ok (VStr "Solidity") ->
  get_prop request "sources" = Ok (VArr elems) ->
  let run := compile H translate soljson input readCallback w in
  let answer message :=
    (Ok (formatFatalError H message),
     {| fptrs := fptrs w; trace := trace w ++ [EvJSONParse input] |}) in
  (elems = [] -> run = answer "No input specified")
  /\ (2 <= length elems ->
      compileJSONMulti (setupMethods soljson) = None ->
      run = answer "Multiple sources provided, but compiler only supports single input").
Proof.
  intros Hstd Hcb Hparse Hlang Hsources run answer. subst run answer. split.
  - intros ->. degraded Hstd Hcb Hparse.
    rewrite Hlang. simpl. unfold noInputSpecified. rewrite Hsources. reflexivity.
  - intros Hlen Hmulti.
    assert (Hlength : get_prop (VArr elems) "length" = Ok (num_of_nat (length elems)))
      by reflexivity.
    assert (Hempty : noInputSpecified request = Ok false).
    { unfold noInputSpecified. rewrite Hsources. cbn [rbind loosely_null].
      rewrite Hlength. cbn [rbind]. rewrite num_of_nat_not_zero by lia. reflexivity. }
    assert (Hmany : multipleSources H request = Ok true).
    { unfold multipleSources. rewrite Hsources. cbn [rbind].
      rewrite Hlength. cbn [rbind]. rewrite num_of_nat_gt_one by lia. reflexivity. }
    unfold compile, compileStandardWrapper. cbv zeta.
    rewrite Hstd, Hmulti, (callback_guard _ Hcb).
    unfold bind at 1. unfold js_parse, bind at 1, emit, ret. cbn [fst snd fptrs trace].
    rewrite Hparse, Hlang, bind_lift_Ok.
    change (negb (strict_eq_str (VStr "Solidity") "Solidity")) with false. cbv iota.
    rewrite Hempty, bind_lift_Ok. cbv iota.
    rewrite Hmany, bind_lift_Ok. reflexivity.
Qed.

(** ** Feature flags *)

(** X14.  The feature flags as functions of the exported symbols: either
    standard-JSON symbol turns on [nativeStandardJSON], [multipleInputs]
    and [importCallback]; besides that [multipleInputs] follows
    [_compileJSONMulti] only, [importCallback] follows
    [_compileJSONCallback], and [legacySingleInput] follows
    [_compileJSON]. *)
Theorem features_by_exports (soljson : Module) :
  let f := setupFeatures soljson in
  let standard := exports soljson "_compileStandard" || exports soljson "_solidity_compile" in
  legacySingleInput f = exports soljson "_compileJSON"
  /\ multipleInputs f = exports soljson "_compileJSONMulti" || standard
  /\ importCallback f = exports soljson "_compileJSONCallback" || standard
  /\ nativeStandardJSON f = standard.
Proof.
  unfold setupFeatures, setupMethods. simpl.
  destruct (exports soljson "_compileJSON"), (exports soljson "_compileJSONMulti"),
    (exports soljson "_compileJSONCallback"), (exports soljson "_compileStandard"),
    (exports soljson "_solidity_compile"); repeat split.
Qed.

Lemma emits_closed_bind {A B : Type} (P : list event -> Prop) (m : M A) (k : A -> M B) :
  (forall e1 e2, P e1 -> P e2 -> P (e1 ++ e2)) ->
  emits P m -> (forall a, emits P (k a)) -> emits P (bind m k).
Proof. intros Happ Hm Hk. eapply emits_bind; eauto. Qed.

Lemma emits_lift {A : Type} (P : list event -> Prop) (r : result A) :
  P [] -> emits P (lift r).
Proof. intros HP w. exists []. simpl. rewrite app_nil_r. auto. Qed.

Lemma emits_one (P : list event -> Prop) (e : event) : P [e] -> emits P (emit e).
Proof. intros HP w. exists [e]. split; [reflexivity | exact HP]. Qed.

Lemma cwrap_events (soljson : Module) (P : list event -> Prop) (ident : string)
    (args : list value) :
  P [EvNative ident args] -> emits P (cwrap soljson ident args).
Proof. intros HP w. exists [EvNative ident args]. split; [reflexivity | exact HP]. Qed.

Lemma translateOutput_events (H : Host) (translate : Translate) (P : list event -> Prop)
    (reply : string) (surplus : list value) :
  (forall evs, registrations evs = [] -> native_calls evs = [] -> P evs) ->
  emits P (translateOutput H translate reply surplus).
Proof.
  intros HP w. rewrite translateOutput_run. eexists. split; [reflexivity|].
  apply HP; [apply registrations_output_events | apply native_calls_output_events].
Qed.

(** X15.  What the [importCallback] flag promises.  When it is off, no run
    of [compile] registers a function pointer: the callback argument is
    never used.  When it is on, every run that reaches a native entry
    point has registered exactly one bridge for the call, the bridge of
    the caller's callback, or of the default callback if none was given. *)
Theorem import_callback_feature (H : Host) (translate : Translate) (soljson : Module)
    (input : string) (readCallback : value) (w : world) :
  exists evs,
    trace (snd (compile H translate soljson input readCallback w)) = trace w ++ evs
    /\ if importCallback (setupFeatures soljson)
       then native_calls evs = []
            \/ exists bridge,
                 bridge_of readCallback = Some bridge /\ registrations evs = [bridge]
       else registrations evs = [].
Proof.
  set (silent := fun evs : list event => registrations evs = [] /\ native_calls evs = []).
  set (bridged := fun evs : list event =>
         native_calls evs = []
         \/ exists bridge, bridge_of readCallback = Some bridge /\ registrations evs = [bridge]).
  assert (Hsilent_app : forall e1 e2, silent e1 -> silent e2 -> silent (e1 ++ e2)).
  { intros e1 e2 [R1 N1] [R2 N2]. split.
    - rewrite registrations_app, R1, R2. reflexivity.
    - rewrite native_calls_app, N1, N2. reflexivity. }
  assert (Hsilent_bridged : forall evs, silent evs -> bridged evs).
  { intros evs [_ N]. left. exact N. }
  assert (Hpre : forall e1 e2, silent e1 -> bridged e2 -> bridged (e1 ++ e2)).
  { intros e1 e2 [R1 N1] [N2|(bridge & Hb & R2)].
    - left. rewrite native_calls_app, N1, N2. reflexivity.
    - right. exists bridge. split; [exact Hb|]. rewrite registrations_app, R1, R2. reflexivity. }
  assert (Hpost : forall e1 e2, bridged e1 -> silent e2 -> bridged (e1 ++ e2)).
  { intros e1 e2 [N1|(bridge & Hb & R1)] [R2 N2].
    - left. rewrite native_calls_app, N1, N2. reflexivity.
    - right. exists bridge. split; [exact Hb|].
      rewrite registrations_app, R1, R2. reflexivity. }
  assert (Hrun : forall ident args,
             emits bridged (runWithReadCallback readCallback (cwrap soljson ident) args)).
  { intros ident args w0. rewrite runWithReadCallback_run.
    destruct (wrapCallback _) as [bridge|e] eqn:Hwrap.
    - destruct (first_free (fptrs w0)) as [cb|].
      + eexists. split; [reflexivity|]. right. exists bridge. split; [|reflexivity].
        destruct readCallback; simpl in Hwrap; try discriminate;
          injection Hwrap as <-; reflexivity.
      + exists []. simpl. rewrite app_nil_r. split; [reflexivity | left; reflexivity].
    - exists []. simpl. rewrite app_nil_r. split; [reflexivity | left; reflexivity]. }
  assert (Hout : forall reply surplus, emits silent (translateOutput H translate reply surplus)).
  { intros reply surplus. apply translateOutput_events. intros evs R N. split; assumption. }
  assert (Hparse : forall text, emits silent (js_parse H text)).
  { intros text w0. exists [EvJSONParse text]. split; [reflexivity | split; reflexivity]. }
  assert (Hnil : silent []) by (split; reflexivity).
  unfold setupFeatures. cbn [importCallback].
  revert w.
  change (emits (fun evs =>
            if not_null (compileJSONCallback (setupMethods soljson))
               || not_null (compileStandard (setupMethods soljson))
            then bridged evs else registrations evs = [])
          (compile H translate soljson input readCallback)).
  unfold compile, compileStandardWrapper, call_compileStandard, call_compileJSONCallback.
  cbv zeta.
  destruct (compileStandard (setupMethods soljson)) as [std|].
  { rewrite orb_true_r.
    eapply emits_bind with (P := bridged) (Q := silent);
      [apply Hrun | intros out; apply emits_ret, Hnil | auto | exact Hpost]. }
  rewrite orb_false_r.
  destruct (compileJSONCallback (setupMethods soljson)) as [cbk|]; cbn [not_null].
  - (* the callback-augmented function is bound *)
    assert (Hfatal : forall msg, emits bridged (ret (formatFatalError H msg)))
      by (intros msg; apply emits_ret, Hsilent_bridged, Hnil).
    assert (Hbind : forall (A : Type) (r : result A) (k : A -> M value),
               (forall a, emits bridged (k a)) -> emits bridged (bind (lift r) k))
      by (intros A r k Hk; apply emits_lift_bind;
          [apply Hsilent_bridged, Hnil | exact Hk]).
    destruct (negb (is_undefined readCallback) && negb (typeof readCallback =? "function"));
      [apply Hfatal|].
    eapply emits_bind with (P := silent) (Q := bridged);
      [apply Hparse | | exact Hsilent_bridged | exact Hpre].
    intros [msg|request]; [apply Hfatal|].
    apply Hbind; intros language.
    destruct (negb (strict_eq_str language "Solidity")); [apply Hfatal|].
    apply Hbind; intros empty. destruct empty; [apply Hfatal|].
    apply Hbind; intros many. destruct (many && _); [apply Hfatal|].
    apply Hbind; intros sources. destruct (is_null sources || _); [apply Hfatal|].
    apply Hbind; intros libraries.
    apply Hbind; intros optimize.
    eapply emits_bind with (P := bridged) (Q := silent);
      [apply Hrun | intros out; apply Hout | auto | exact Hpost].
  - (* no function takes a callback *)
    set (unregistered := fun evs : list event => registrations evs = []).
    assert (Happ : forall e1 e2, unregistered e1 -> unregistered e2 -> unregistered (e1 ++ e2)).
    { intros e1 e2 R1 R2. unfold unregistered in *.
      rewrite registrations_app, R1, R2. reflexivity. }
    assert (Hfatal : forall msg, emits unregistered (ret (formatFatalError H msg)))
      by (intros msg; apply emits_ret; reflexivity).
    assert (Hbind : forall (A : Type) (r : result A) (k : A -> M value),
               (forall a, emits unregistered (k a)) -> emits unregistered (bind (lift r) k))
      by (intros A r k Hk; apply emits_lift_bind; [reflexivity | exact Hk]).
    assert (Hcall : forall ident args libraries,
               emits unregistered (let! output := cwrap soljson ident args in
                                   translateOutput H translate output [libraries])).
    { intros ident args libraries. apply emits_closed_bind; [exact Happ | |].
      - apply cwrap_events. reflexivity.
      - intros out. apply translateOutput_events. intros evs R _. exact R. }
    destruct (negb (is_undefined readCallback) && negb (typeof readCallback =? "function"));
      [apply Hfatal|].
    apply emits_closed_bind; [exact Happ | |].
    { intros w0. exists [EvJSONParse input]. split; reflexivity. }
    intros [msg|request]; [apply Hfatal|].
    apply Hbind; intros language.
    destruct (negb (strict_eq_str language "Solidity")); [apply Hfatal|].
    apply Hbind; intros empty. destruct empty; [apply Hfatal|].
    apply Hbind; intros many. destruct (many && _); [apply Hfatal|].
    apply Hbind; intros sources. destruct (is_null sources || _); [apply Hfatal|].
    apply Hbind; intros libraries.
    destruct (compileJSONMulti (setupMethods soljson)) as [multi|].
    { apply Hbind; intros optimize. apply Hcall. }
    destruct (compileJSON (setupMethods soljson)) as [single|]; [|apply Hfatal].
    apply Hbind; intros first. apply Hbind; intros optimize. apply Hcall.
Qed.

(** ** Metadata accessors *)

(** X16.  [license] prefers [_solidity_license] over [_license] and calls
    the chosen symbol once, without arguments; on a module that exports
    neither it calls nothing and returns [undefined]. *)
Theorem license_symbol_choice (soljson : Module) (w : world) :
  let run := license soljson w in
  (exists evs,
      trace (snd run) = trace w ++ evs
      /\ native_calls evs =
           if exports soljson "_solidity_license" then [("solidity_license", [])]
           else if exports soljson "_license" then [("license", [])]
           else [])
  /\ (exports soljson "_solidity_license" = false ->
      exports soljson "_license" = false ->
      run = (Ok VUndefined, w)).
Proof.
  unfold license. split.
  - destruct (exports soljson "_solidity_license");
      [|destruct (exports soljson "_license")].
    + exists [EvNative "solidity_license" []]. unfold bind, cwrap, bind, emit, ret. simpl.
      destruct (native soljson "solidity_license" [] (fptrs w)); split; reflexivity.
    + exists [EvNative "license" []]. unfold bind, cwrap, bind, emit, ret. simpl.
      destruct (native soljson "license" [] (fptrs w)); split; reflexivity.
    + exists []. simpl. rewrite app_nil_r. split; reflexivity.
  - intros -> ->. reflexivity.
Qed.

(** X17.  [version] calls [solidity_version] when the module exports it
    and otherwise the old [version], whether or not that one is exported:
    there is no third case.  [semver] makes that same single call and
    hands the raw string to the version translator; a fault of the native
    call escapes from both. *)
Theorem version_symbol_choice (soljson : Module)
    (translate_versionToSemver : string -> result value) (w : world) :
  let ident := if exports soljson "_solidity_version"
               then "solidity_version" else "version" in
  let after := {| fptrs := fptrs w; trace := trace w ++ [EvNative ident []] |} in
  version soljson w = (native soljson ident [] (fptrs w), after)
  /\ versionToSemver soljson translate_versionToSemver w =
       (match native soljson ident [] (fptrs w) with
        | Ok raw => translate_versionToSemver raw
        | Throw e => Throw e
        end, after).
Proof.
  unfold versionToSemver, version.
  destruct (exports soljson "_solidity_version"); simpl; split; try reflexivity;
    unfold bind, cwrap, bind, emit, lift; simpl;
    match goal with |- context [native ?m ?i ?a ?t] => destruct (native m i a t) end;
    reflexivity.
Qed.

(** ** The bridge closure *)



(** X18.  When [compile] was given no callback, the bridge answers every
    import with the fixed error: it allocates one buffer of the byte
    length of "File import callback not supported" plus one, writes the
    message there and stores the buffer in the error slot; the contents
    slot is not written. *)
Theorem default_bridge_reports_unsupported (rt : Runtime) (path contents error : nat)
    (ops : list heap_op) :
  let message := "File import callback not supported" in
  let size := lengthBytesUTF8 rt message + 1 in
  let buffer := malloc_address rt ops size in
  bridge_call rt default_readCallback path contents error ops =
    (Ok tt, ops ++ [HeapMalloc size buffer; HeapStringToUTF8 message buffer size;
                    HeapSetValue error buffer "*"]).
Proof. reflexivity. Qed.

(** X19.  A callback that returns [undefined] or [null] makes the bridge
    throw a TypeError when it reads [result.contents]; nothing is
    allocated or written. *)
Theorem bridge_nullish_result_throws (rt : Runtime) (callback : string -> result value)
    (path contents error : nat) (ops : list heap_op) (result : value) :
  callback (Pointer_stringify rt path) = Ok result ->
  loosely_null result = true ->
  exists msg, bridge_call rt callback path contents error ops = (Throw (TypeError msg), ops).
Proof.
  intros Hcall Hnull. unfold bridge_call. rewrite Hcall.
  destruct result; try discriminate Hnull; eexists; reflexivity.
Qed.


(** ** Concrete runs for the further properties *)

Lemma sample_requests_parse :
  Demo.parse Samples.null_content_request = inr Samples.null_content
  /\ Demo.parse Samples.empty_array_request = inr Samples.empty_array
  /\ Demo.parse Samples.two_element_array_request = inr Samples.two_element_array.
Proof. repeat split; vm_compute; reflexivity. Qed.

Lemma two_sources_pass_validation (symbols : list string) (reply : result string) :
  passes_validation Demo.host (setupMethods (Demo.module symbols reply)) Demo.two_sources
    Samples.two_sources_props VUndefined VUndefined.
Proof.
  split; [reflexivity|]. split; [reflexivity|]. split.
  - exists false. split; reflexivity.
  - split; [reflexivity|]. split; [discriminate|]. split; reflexivity.
Defined.

(** A standard-JSON module answers a request in another language. *)
Lemma standard_path_witness :
  let standard := Demo.module ["_compileJSON"; "_solidity_compile"] (Ok "{}") in
  compileStandard (setupMethods standard) = Some "solidity_compile"
  /\ bridge_of (VFun (HostFunction 7)) = Some (Bridged (HostFunction 7))
  /\ first_free (fptrs Demo.w0) = Some 0
  /\ compile Demo.host Demo.translator standard Demo.yul_request (VFun (HostFunction 7)) Demo.w0
     = (Ok (VStr "{}"),
        {| fptrs := fptrs Demo.w0;
           trace := [EvAddFunction (Bridged (HostFunction 7)) 0;
                     EvNative "solidity_compile" [VStr Demo.yul_request; num_of_nat 0];
                     EvRemoveFunction 0] |}).
Proof.
  intros standard. do 3 (split; [reflexivity|]).
  exact (standard_path_passes_through Demo.host Demo.translator standard Demo.yul_request
           (VFun (HostFunction 7)) Demo.w0 "solidity_compile" (Bridged (HostFunction 7)) 0
           eq_refl eq_refl eq_refl).
Defined.

Lemma standard_path_invalid_callback_witness :
  let standard := Demo.module ["_solidity_compile"] (Ok "{}") in
  compileStandard (setupMethods standard) = Some "solidity_compile"
  /\ VStr "callback" <> VUndefined
  /\ typeof (VStr "callback") <> "function"
  /\ compile Demo.host Demo.translator standard Demo.single_source_request
       (VStr "callback") Demo.w0
     = (Throw (AssertionError "Invalid callback specified."), Demo.w0).
Proof.
  intros standard.
  assert (Hdef : VStr "callback" <> VUndefined) by discriminate.
  assert (Hfun : typeof (VStr "callback") <> "function") by discriminate.
  split; [reflexivity|]. split; [exact Hdef|]. split; [exact Hfun|].
  exact (standard_path_invalid_callback_throws Demo.host Demo.translator standard
           Demo.single_source_request (VStr "callback") Demo.w0 "solidity_compile"
           eq_refl Hdef Hfun).
Defined.

Lemma invalid_json_input_witness :
  let legacy := Demo.module ["_compileJSON"] (Ok "{}") in
  compileStandard (setupMethods legacy) = None
  /\ callback_accepted VUndefined = true
  /\ JSON_parse Demo.host "{language" = inl "Unexpected token in JSON"
  /\ compile Demo.host Demo.translator legacy "{language" VUndefined Demo.w0
     = (Ok (formatFatalError Demo.host "Invalid JSON supplied: Unexpected token in JSON"),
        {| fptrs := fptrs Demo.w0; trace := trace Demo.w0 ++ [EvJSONParse "{language"] |}).
Proof.
  intros legacy.
  assert (Hparse : JSON_parse Demo.host "{language" = inl "Unexpected token in JSON")
    by (vm_compute; reflexivity).
  do 2 (split; [reflexivity|]). split; [exact Hparse|].
  exact (invalid_json_input_response Demo.host Demo.translator legacy "{language"
           VUndefined Demo.w0 "Unexpected token in JSON" eq_refl eq_refl Hparse).
Defined.

(** Two sources on a module with every degraded entry point, the caller's
    callback being a function. *)
Lemma degraded_call_arguments_witness :
  let degraded := Demo.module ["_compileJSON"; "_compileJSONMulti"; "_compileJSONCallback"]
                    (Ok "{}") in
  let callback := VFun (HostFunction 7) in
  preferred (setupMethods degraded) = Some (CallbackAugmented, "compileJSONCallback")
  /\ JSON_parse Demo.host Demo.two_sources_request = inr Demo.two_sources
  /\ exists evs,
       trace (snd (compile Demo.host Demo.translator degraded Demo.two_sources_request
                     callback Demo.w0)) = trace Demo.w0 ++ evs
       /\ native_calls evs
          = [("compileJSONCallback",
              entry_arguments Demo.host CallbackAugmented Samples.two_sources_props
                VUndefined 0)]
       /\ registrations evs = [Bridged (HostFunction 7)].
Proof.
  intros degraded callback.
  assert (Hparse : JSON_parse Demo.host Demo.two_sources_request = inr Demo.two_sources)
    by (vm_compute; reflexivity).
  split; [reflexivity|]. split; [exact Hparse|].
  exact (degraded_call_arguments Demo.host Demo.translator degraded Demo.two_sources_request
           callback Demo.w0 Demo.two_sources Samples.two_sources_props VUndefined VUndefined
           CallbackAugmented "compileJSONCallback" (Bridged (HostFunction 7)) 0
           eq_refl eq_refl Hparse (two_sources_pass_validation _ _) eq_refl
           (fun _ => eq_refl)).
Defined.

(** The multi-input module answers with text that is not JSON. *)
Lemma degraded_reply_response_witness :
  let multi := Demo.module ["_compileJSON"; "_compileJSONMulti"] (Ok "Segmentation fault") in
  let run := compile Demo.host Demo.translator multi Demo.two_sources_request
               VUndefined Demo.w0 in
  preferred (setupMethods multi) = Some (MultiInput, "compileJSONMulti")
  /\ JSON_parse Demo.host "Segmentation fault" = inl "Unexpected token in JSON"
  /\ fst run = Ok (formatFatalError Demo.host
                     "Compiler returned invalid JSON: Unexpected token in JSON")
  /\ translate_calls (trace (snd run)) = translate_calls (trace Demo.w0).
Proof.
  intros multi run.
  assert (Hparse : JSON_parse Demo.host Demo.two_sources_request = inr Demo.two_sources)
    by (vm_compute; reflexivity).
  assert (Hreply : JSON_parse Demo.host "Segmentation fault" = inl "Unexpected token in JSON")
    by (vm_compute; reflexivity).
  split; [reflexivity|]. split; [exact Hreply|].
  exact (proj1 (degraded_reply_response Demo.host Demo.translator multi
                  Demo.two_sources_request VUndefined Demo.w0 Demo.two_sources
                  Samples.two_sources_props VUndefined VUndefined MultiInput
                  "compileJSONMulti" (Bridged DefaultReadCallback) 0 "Segmentation fault"
                  eq_refl eq_refl Hparse (two_sources_pass_validation _ _) eq_refl
                  (fun E => match E with end) eq_refl)
           "Unexpected token in JSON" Hreply).
Defined.

(** The callback-augmented function aborts. *)
Lemma degraded_native_fault_witness :
  let faulting := Demo.module ["_compileJSON"; "_compileJSONMulti"; "_compileJSONCallback"]
                    (Throw (Thrown (VStr "abort"))) in
  preferred (setupMethods faulting) = Some (CallbackAugmented, "compileJSONCallback")
  /\ compile Demo.host Demo.translator faulting Demo.two_sources_request VUndefined Demo.w0
     = (Throw (Thrown (VStr "abort")),
        {| fptrs := fptrs Demo.w0;
           trace := trace Demo.w0 ++ EvJSONParse Demo.two_sources_request
                      :: [EvAddFunction (Bridged DefaultReadCallback) 0;
                          EvNative "compileJSONCallback"
                            (entry_arguments Demo.host CallbackAugmented
                               Samples.two_sources_props VUndefined 0);
                          EvRemoveFunction 0] |}).
Proof.
  intros faulting.
  assert (Hparse : JSON_parse Demo.host Demo.two_sources_request = inr Demo.two_sources)
    by (vm_compute; reflexivity).
  split; [reflexivity|].
  exact (degraded_native_fault_escapes Demo.host Demo.translator faulting
           Demo.two_sources_request VUndefined Demo.w0 Demo.two_sources
           Samples.two_sources_props VUndefined VUndefined CallbackAugmented
           "compileJSONCallback" (Bridged DefaultReadCallback) 0 (Thrown (VStr "abort"))
           eq_refl eq_refl Hparse (two_sources_pass_validation _ _) eq_refl
           (fun _ => eq_refl) eq_refl).
Defined.

(** A module that exports only the metadata symbols. *)
Lemma no_interface_witness :
  let bare := Demo.module ["_version"; "_license"] (Ok "{}") in
  preferred (setupMethods bare) = None
  /\ compile Demo.host Demo.translator bare Demo.two_sources_request VUndefined Demo.w0
     = (Ok (formatFatalError Demo.host "Compiler does not support any known interface."),
        {| fptrs := fptrs Demo.w0;
           trace := trace Demo.w0 ++ [EvJSONParse Demo.two_sources_request] |}).
Proof.
  intros bare.
  assert (Hparse : JSON_parse Demo.host Demo.two_sources_request = inr Demo.two_sources)
    by (vm_compute; reflexivity).
  split; [reflexivity|].
  exact (no_interface_response Demo.host Demo.translator bare Demo.two_sources_request
           VUndefined Demo.w0 Demo.two_sources Samples.two_sources_props VUndefined
           VUndefined eq_refl eq_refl Hparse (two_sources_pass_validation _ _)).
Defined.

Lemma translateSources_contents_witness :
  let srcs := VObj [("a.sol", VObj [("content", VStr "x")]);
                    ("b.sol", VObj [("content", VStr "y")])] in
  get_prop Demo.two_sources "sources" = Ok srcs
  /\ translateSources Demo.two_sources = Ok (VObj Samples.two_sources_props)
  /\ (forall k c,
         assoc k Samples.two_sources_props = Some c ->
         In k (enumerable_keys srcs) /\ c <> VNull
         /\ exists entry, get_prop srcs k = Ok entry /\ get_prop entry "content" = Ok c)
  /\ (forall k, In k (enumerable_keys srcs) -> k <> "__proto__" ->
                assoc k Samples.two_sources_props <> None).
Proof.
  intros srcs. do 2 (split; [reflexivity|]).
  exact (translateSources_contents Demo.two_sources srcs Samples.two_sources_props
           eq_refl eq_refl).
Defined.



Lemma librariesSupplied_witness :
  get_prop Demo.single_source "settings" = Ok VUndefined
  /\ ((exists e, librariesSupplied Demo.single_source = Throw e) <-> VUndefined = VUndefined)
  /\ (VUndefined = VNull -> librariesSupplied Demo.single_source = Ok VUndefined)
  /\ (loosely_null VUndefined = false ->
      librariesSupplied Demo.single_source = get_prop VUndefined "libraries").
Proof.
  split; [reflexivity|].
  exact (librariesSupplied_throws_iff_absent Demo.single_source VUndefined eq_refl).
Defined.

(** An empty array and an array of two sources on a legacy-only module. *)
Lemma array_sources_witness :
  let legacy := Demo.module ["_compileJSON"] (Ok "{}") in
  let answer input message :=
    (Ok (formatFatalError Demo.host message),
     {| fptrs := fptrs Demo.w0; trace := trace Demo.w0 ++ [EvJSONParse input] |}) in
  JSON_parse Demo.host Samples.empty_array_request = inr Samples.empty_array
  /\ JSON_parse Demo.host Samples.two_element_array_request = inr Samples.two_element_array
  /\ compile Demo.host Demo.translator legacy Samples.empty_array_request VUndefined Demo.w0
     = answer Samples.empty_array_request "No input specified"
  /\ compile Demo.host Demo.translator legacy Samples.two_element_array_request
       VUndefined Demo.w0
     = answer Samples.two_element_array_request
         "Multiple sources provided, but compiler only supports single input".
Proof.
  intros legacy answer.
  assert (Hempty : JSON_parse Demo.host Samples.empty_array_request = inr Samples.empty_array)
    by (vm_compute; reflexivity).
  assert (Htwo : JSON_parse Demo.host Samples.two_element_array_request
                 = inr Samples.two_element_array) by (vm_compute; reflexivity).
  split; [exact Hempty|]. split; [exact Htwo|]. split.
  - exact (proj1 (array_sources_length_checks Demo.host Demo.translator legacy
                    Samples.empty_array_request VUndefined Demo.w0 Samples.empty_array []
                    eq_refl eq_refl Hempty eq_refl eq_refl) eq_refl).
  - exact (proj2 (array_sources_length_checks Demo.host Demo.translator legacy
                    Samples.two_element_array_request VUndefined Demo.w0
                    Samples.two_element_array
                    [VObj [("content", VStr "x")]; VObj [("content", VStr "y")]]
                    eq_refl eq_refl Htwo eq_refl eq_refl) (le_n 2) eq_refl).
Defined.

(** A module of the time before 0.4.14. *)
Lemma license_witness :
  let old := Demo.module ["_compileJSON"; "_version"] (Ok "0.4.10") in
  exports old "_solidity_license" = false
  /\ exports old "_license" = false
  /\ license old Demo.w0 = (Ok VUndefined, Demo.w0).
Proof.
  intros old. do 2 (split; [reflexivity|]).
  exact (proj2 (license_symbol_choice old Demo.w0) eq_refl eq_refl).
Defined.

Lemma bridge_nullish_result_witness :
  Samples.silent_callback (Pointer_stringify Samples.runtime 16) = Ok VUndefined
  /\ loosely_null VUndefined = true
  /\ exists msg,
       bridge_call Samples.runtime Samples.silent_callback 16 24 32 []
       = (Throw (TypeError msg), []).
Proof.
  do 2 (split; [reflexivity|]).
  exact (bridge_nullish_result_throws Samples.runtime Samples.silent_callback 16 24 32 []
           VUndefined eq_refl eq_refl).
Defined.

